(** * SEPIA diagnostics: a shallow embedding of [sepia/SepiaPlot.py]

    The Python functions of [SepiaPlot.py] are embedded as Rocq functions
    in a small monad that records the observable effects of a call (what is
    printed, which plotting calls are made, with which data) and the Python
    exception that ends it, if any.

    Conventions.
    - Python [int] is [Z]; structural sizes ([p], [q], [pu], array shapes)
      are [nat].
    - The entries of arrays and the quantile levels are finite floats,
      taken exactly: [Q].  An argument that the code compares before using
      it ([alpha] of [plot_acf]) is a [pyfloat]: a finite value, an
      infinity or NaN, with the comparisons of IEEE 754.
    - A two-dimensional [numpy] array is its list of rows together with its
      column count (the count is data: an array of shape (0, w) has no row).
    - A Python [dict] is an association list in insertion order; a
      well-formed one has no repeated key.
    - Arguments have the types of the docstrings ([bool native],
      [list/NoneType theta_names], [int start], ...). *)

From Stdlib Require Import String ZArith QArith Qround Qabs List Sorted Bool Lia
  DecimalString.
Import ListNotations.

Local Open Scope string_scope.
Local Open Scope list_scope.
Local Open Scope Z_scope.

(** ** Arrays *)

Record ndarray : Type := mk_array { ncols : nat; rows : list (list Q) }.

(** [a.shape[0]] and [a.shape[1]]. *)
Definition shape0 (a : ndarray) : nat := length (rows a).
Definition shape1 (a : ndarray) : nat := ncols a.

(** [a[:, j]] for [j < a.shape[1]]. *)
Definition column (a : ndarray) (j : nat) : list Q :=
  map (fun r => nth j r 0%Q) (rows a).

(** [a.T] *)
Definition transpose (a : ndarray) : ndarray :=
  mk_array (shape0 a) (map (column a) (seq 0 (ncols a))).


(** ** Floats *)

Inductive pyfloat : Type :=
| Fin (q : Q)
| PInf
| NInf
| NaN.

(** [a <= b] on floats: false as soon as one side is NaN. *)
Definition float_le (a b : pyfloat) : bool :=
  match a, b with
  | NaN, _ | _, NaN => false
  | NInf, _ | _, PInf => true
  | Fin x, Fin y => Qle_bool x y
  | PInf, _ | _, NInf => false
  end.

(** ** Dictionaries *)

Definition dict (V : Type) : Type := list (string * V).

Definition keys {V} (d : dict V) : list string := map fst d.

Fixpoint dict_get {V} (d : dict V) (k : string) : option V :=
  match d with
  | [] => None
  | (k', v) :: d' => if (k' =? k)%string then Some v else dict_get d' k
  end.

(** [k in d.keys()] *)
Definition contains {V} (d : dict V) (k : string) : bool :=
  match dict_get d k with Some _ => true | None => false end.

(** [d[k] = v]: an existing key keeps its position. *)
Fixpoint dict_set {V} (d : dict V) (k : string) (v : V) : dict V :=
  match d with
  | [] => [(k, v)]
  | (k', v') :: d' =>
      if (k' =? k)%string then (k', v) :: d' else (k', v') :: dict_set d' k v
  end.

(** A dict literal or comprehension: the items are stored left to right. *)
Definition dict_of_items {V} (items : list (string * V)) : dict V :=
  fold_left (fun d kv => dict_set d (fst kv) (snd kv)) items [].

Definition wf_dict {V} (d : dict V) : Prop := NoDup (keys d).

(** ** Exceptions, effects and the monad of a call *)

Inductive exn : Type :=
| ValueError (msg : string)
| TypeError (msg : string)
| KeyError (key : string)
| IndexError (msg : string)
| UnboundLocalError (var : string)
| AttributeError (msg : string).

Inductive result (A : Type) : Type :=
| Ok (a : A)
| Raise (e : exn).
Arguments Ok {A} a.
Arguments Raise {A} e.

(** Figures are told apart by the call that made them. *)
Inductive figure : Type :=
| SubplotsFig (nrows : Z)
| PairGridFig (nvars : nat)
| ModelFig (tag : nat).

(** A pandas DataFrame: the index labels and the named columns. *)
Record DataFrame : Type := mk_df {
  df_index : list string;
  df_columns : dict (list Q)
}.

Inductive event : Type :=
| EPrint (msg : string)
| ESubplots (nrows : Z)
| ELineplot (key : string) (col : nat) (x : list Z) (y : list Q)
            (ax : nat) (label : option string)
| ESetYLabel (ax : nat) (label : string)
| ELegend (ax : nat) (ncol : Z)
| ESavefig (file : string)
| EPairGrid (names : list string) (data : list (list Q))
| EDiagXLim (i : nat) (lo hi : Q)
| ESetXLim (i j : nat) (lo hi : Q)
| ESetYLim (i j : nat) (lo hi : Q)
| ERefLine (i : nat) (x : Q)
| ERefDot (i j : nat) (x y : Q)
| EDistplot (data : list (list Q)) (axlabel : string)
| EBoxplot (ax : nat) (data : list (list Q))
| ESetXTickLabels (ax : nat) (labels : list string)
| ESetYTicks (ax : nat) (ticks : list Q)
| ESetTitle (ax : nat) (title : string)
| EAcf (chain : ndarray) (nlags : Z) (alpha : pyfloat).

Definition Py (A : Type) : Type := (list event * result A)%type.

Definition ret {A} (a : A) : Py A := ([], Ok a).
Definition raise {A} (e : exn) : Py A := ([], Raise e).
Definition emit (ev : event) : Py unit := ([ev], Ok tt).

Definition bind {A B} (m : Py A) (f : A -> Py B) : Py B :=
  match m with
  | (t, Ok a) => let (t', r) := f a in (t ++ t', r)
  | (t, Raise e) => (t, Raise e)
  end.

Declare Scope py_scope.
Delimit Scope py_scope with py.
Notation "x <- m ;; k" := (bind m (fun x => k))
  (at level 61, m at next level, right associativity) : py_scope.
Notation "m ;; k" := (bind m (fun _ => k))
  (at level 61, right associativity) : py_scope.
Local Open Scope py_scope.

Definition trace {A} (m : Py A) : list event := fst m.
Definition outcome {A} (m : Py A) : result A := snd m.

Definition raises {A} (m : Py A) : bool :=
  match outcome m with Raise _ => true | Ok _ => false end.

(** [for x in l: body], threading the loop-carried state. *)
Fixpoint for_each {A S} (l : list A) (body : S -> A -> Py S) (s : S) : Py S :=
  match l with
  | [] => ret s
  | x :: l' => s' <- body s x ;; for_each l' body s'
  end.

(** [enumerate(l)] *)
Definition enumerate {A} (l : list A) : list (nat * A) :=
  combine (seq 0 (length l)) l.

Definition getitem {V} (d : dict V) (k : string) : Py V :=
  match dict_get d k with
  | Some v => ret v
  | None => raise (KeyError k)
  end.

(** ** The model object

    [SepiaModel] and [SepiaParam] are classes of other modules; a model is
    the record of the attributes and methods that [SepiaPlot.py] uses. *)

Record SepiaParam : Type := mk_param {
  name : string;
  mcmc_to_array : option bool (* flat=..., when given *) -> ndarray
}.

Record ModelNum : Type := mk_num {
  num_p : nat;
  num_q : nat;
  num_pu : nat;
  sim_only : bool
}.

Record acf_dict : Type := mk_acf {
  acf_figure : figure;
  acf_values : list (list Q)
}.

Record SepiaModel : Type := mk_model {
  num : ModelNum;
  mcmcList : list SepiaParam;            (* model.params.mcmcList *)
  get_num_samples : Z;
  acf : ndarray -> Z -> bool (* plot *) -> pyfloat -> acf_dict
}.

(** ** [plot_acf] *)

(** The loop that picks the theta chain: the last parameter named
    ['theta'] wins, and [chain] stays unbound when there is none. *)
Definition theta_chain (params : list SepiaParam) : option ndarray :=
  fold_left
    (fun chain p =>
       if (name p =? "theta")%string then Some (transpose (mcmc_to_array p (Some true)))
       else chain)
    params None.

Definition plot_acf (model : SepiaModel) (nlags : Z) (nburn : Z)
    (alpha : pyfloat) (save : option string) : Py (option acf_dict) :=
  if nlags >? get_num_samples model then
    raise (ValueError "plot_acf: must have more samples than requested lag size")
  else if float_le alpha (Fin 0) || float_le (Fin 1) alpha then
    raise (ValueError "alpha must be in (0,1)")
  else if sim_only (num model) then
    emit (EPrint "ACF needs thetas but this is a sim-only model.") ;;
    ret None
  else
    match theta_chain (mcmcList model) with
    | None => raise (UnboundLocalError "chain")
    | Some chain =>
        emit (EAcf chain nlags alpha) ;;
        let acf := acf model chain nlags true alpha in
        match save with
        | Some file => emit (ESavefig file)
        | None => ret tt
        end ;;
        ret (Some acf)
    end.

(** ** Library calls

    A call into matplotlib, seaborn or pandas is recorded as an event: the
    event says that the call is made, with which arguments.  The failures
    of the libraries that are modelled are those that the arguments of the
    Python code decide: the bounds check of fancy indexing, the level and
    the empty array of [np.quantile], the row count of [plt.subplots], the
    label count of [set_xticklabels], the column ['idx'] of
    [DataFrame.insert].  Whether seaborn can draw the data it is given (a
    density of a single row, columns of equal name) is not modelled: an
    event of a seaborn call stands for the call, not for its success.
    What else is modelled of the libraries is what the Python code relies
    on: integer [np.linspace], [np.arange] and [np.unique], and the shape
    of what [plt.subplots] returns. *)

(** [str(n)] and ['%d' % n] for a natural number. *)
Definition str_nat (n : nat) : string :=
  NilEmpty.string_of_uint (Nat.to_uint n).

(** [range(n)] for a Python int. *)
Definition range (n : Z) : list nat := seq 0 (Z.to_nat n).

(** [np.linspace(start, stop, num, dtype=int)] on integers with
    [start <= stop]: the values are cut down to integers.  Here the exact
    rational [start + i * (stop - start) / (num - 1)] is cut, where numpy
    cuts its rounded floating-point value: a value that is an integer
    exactly can come out one lower in numpy.  The count, the bounds and
    the order of the values are the same. *)
Definition np_linspace_int (start stop num : Z) : Py (list Z) :=
  if num <? 0 then
    raise (ValueError "Number of samples must be non-negative.")
  else if num =? 1 then ret [start]
  else
    ret (map (fun i =>
                Qfloor (inject_Z start
                        + inject_Z (Z.of_nat i) * inject_Z (stop - start)
                          / inject_Z (num - 1)))
             (range num)).

(** [np.arange(start, stop, 1, dtype=int)] *)
Definition np_arange (start stop : Z) : list Z :=
  map (fun i => start + Z.of_nat i) (range (stop - start)).

Fixpoint insert_sorted (x : Z) (l : list Z) : list Z :=
  match l with
  | [] => [x]
  | y :: l' =>
      if x <? y then x :: l
      else if x =? y then l
      else y :: insert_sorted x l'
  end.

(** [np.unique]: sorted, without repetition. *)
Definition np_unique (l : list Z) : list Z :=
  fold_right insert_sorted [] l.


(** [l[i]] on a Python list, [i >= 0]. *)
Definition list_getitem {A} (l : list A) (i : nat) : Py A :=
  match nth_error l i with
  | Some x => ret x
  | None => raise (IndexError "list index out of range")
  end.

(** One row index of a fancy index: negative indices count from the end. *)
Definition row_at (a : ndarray) (r : Z) : Py (list Q) :=
  let n := Z.of_nat (shape0 a) in
  if (r <? - n) || (n <=? r) then
    raise (IndexError "index out of bounds")
  else
    match nth_error (rows a) (Z.to_nat (if r <? 0 then r + n else r)) with
    | Some row => ret row
    | None => raise (IndexError "index out of bounds")
    end.

(** [a[idx, :]] *)
Definition take_rows (a : ndarray) (idx : list Z) : Py (list (list Q)) :=
  for_each idx (fun acc r => row <- row_at a r ;; ret (acc ++ [row])) [].

(** [a[idx, j]] *)
Definition take_column (a : ndarray) (idx : list Z) (j : nat) : Py (list Q) :=
  if (shape1 a <=? j)%nat then raise (IndexError "index out of bounds")
  else
    picked <- take_rows a idx ;;
    ret (map (fun r => nth j r 0%Q) picked).




(** [fig, axs = plt.subplots(nrows, 1, ...)]: with the default
    [squeeze=True], [axs] is a single Axes when [nrows = 1] and an array of
    [nrows] Axes otherwise.  [axs] is represented by [nrows]. *)
Definition plt_subplots (nrows : Z) : Py Z :=
  if nrows <=? 0 then
    raise (ValueError "Number of rows must be a positive integer")
  else emit (ESubplots nrows) ;; ret nrows.

(** [axs[i]] *)
Definition axs_getitem (axs : Z) (i : nat) : Py nat :=
  if axs =? 1 then raise (TypeError "'Axes' object is not subscriptable")
  else if Z.of_nat i <? axs then ret i
  else raise (IndexError "index out of bounds").

(** [axs.set_ylabel(label)]: only a single Axes has the method, and the
    attribute is looked up before the argument is evaluated. *)
Definition axs_set_ylabel (axs : Z) (label : Py string) : Py unit :=
  if axs =? 1 then l <- label ;; emit (ESetYLabel 0 l)
  else raise (AttributeError "'numpy.ndarray' object has no attribute 'set_ylabel'").

(** [if save is not None: plt.savefig(save, ...)] *)
Definition savefig (save : option string) : Py unit :=
  match save with
  | Some file => emit (ESavefig file)
  | None => ret tt
  end.

(** The floating-point functions of numpy and the formatting of a float,
    taken as given. *)
Record Numerics : Type := mk_numerics {
  np_mean : list Q -> Q;
  np_std : list Q -> Q;
  np_quantile : list Q -> Q -> Q;       (* non-empty, level in [0, 1] *)
  np_round : Q -> Z -> Q;
  np_exp : Q -> Q;
  str_float : Q -> string               (* '{}'.format(x) *)
}.

(** [np.quantile(a, q)] checks the level before it computes, and finds no
    element to take in an empty array. *)
Definition quantile (np : Numerics) (a : list Q) (q : Q) : Py Q :=
  if Qle_bool 0 q && Qle_bool q 1 then
    match a with
    | [] => raise (IndexError "index -1 is out of bounds for axis 0 with size 0")
    | _ :: _ => ret (np_quantile np a q)
    end
  else raise (ValueError "Quantiles must be in the range [0, 1]").

(** [for x in l: body] when the loop carries no state. *)
Definition for_ {A} (l : list A) (body : A -> Py unit) : Py unit :=
  for_each l (fun _ x => body x) tt.

(** ** [theta_pairs] *)

(** Lines 46-63: the axis limits of the pairs plot (lines 48-54 only undo
    the sharing of axes and leave no event). *)
Definition set_limits (n_theta : nat) (lims : list (Q * Q)) : Py unit :=
  for_ (seq 0 n_theta) (fun i =>
    for_ (seq 0 n_theta) (fun j =>
      if (i =? j)%nat then
        li <- list_getitem lims i ;;
        emit (EDiagXLim i (fst li) (snd li)) ;;
        emit (ESetXLim i i (fst li) (snd li))
      else
        lj <- list_getitem lims j ;;
        emit (ESetXLim i j (fst lj) (snd lj)) ;;
        li <- list_getitem lims i ;;
        emit (ESetYLim i j (fst li) (snd li)))).

(** Lines 65-70: the reference values. *)
Definition plot_reference (n_theta : nat) (theta_ref : list Q) : Py unit :=
  for_ (seq 0 n_theta) (fun i =>
    ri <- list_getitem theta_ref i ;;
    emit (ERefLine i ri) ;;
    for_ (seq 0 n_theta) (fun j =>
      if (j <? i)%nat then
        rj <- list_getitem theta_ref j ;;
        ri <- list_getitem theta_ref i ;;
        emit (ERefDot i j rj ri)
      else ret tt)).

(** Lines 30-81: what is done with the chosen array. *)
Definition theta_pairs_plot (theta : ndarray)
    (design_names : option (list string)) (native : bool)
    (lims : option (list (Q * Q))) (theta_ref : option (list Q))
    (save : option string) : Py (option figure) :=
  let n_samp := shape0 theta in
  let n_theta := shape1 theta in
  let lims :=
    match lims with
    | None => if negb native then Some (repeat (0%Q, 1%Q) n_theta) else None
    | Some l => Some l
    end in
  match design_names with
  | Some l =>
      if negb (length l =? n_theta)%nat
      then raise (ValueError "Design names wrong length") else ret tt
  | None => ret tt
  end ;;
  let design_names :=
    match design_names with
    | None => map (fun i => "theta_" ++ str_nat (i + 1))%string (seq 0 n_theta)
    | Some l => l
    end in
  thin_idx <- np_linspace_int 0 (Z.of_nat n_samp - 1)
                (Z.min (Z.of_nat n_samp - 1) 1000) ;;
  data <- take_rows theta thin_idx ;;
  (* theta_df.insert(0, 'idx', ..., allow_duplicates=False) *)
  if existsb (String.eqb "idx") design_names then
    raise (ValueError "cannot insert idx, already exists")
  else if (2 <? n_theta + 1)%nat then
    emit (EPairGrid design_names data) ;;
    match lims with
    | Some l => set_limits n_theta l
    | None => ret tt
    end ;;
    match theta_ref with
    | Some r => plot_reference n_theta r
    | None => ret tt
    end ;;
    savefig save ;;
    ret (Some (PairGridFig n_theta))
  else
    emit (ESubplots 1) ;;
    axlabel <- list_getitem design_names 0 ;;
    emit (EDistplot data axlabel) ;;
    savefig save ;;
    ret (Some (SubplotsFig 1)).

Definition theta_pairs (samples_dict : dict ndarray)
    (design_names : option (list string)) (native : bool)
    (lims : option (list (Q * Q))) (theta_ref : option (list Q))
    (save : option string) : Py (option figure) :=
  if negb (contains samples_dict "theta") then
    emit (EPrint "No thetas to plot") ;;
    ret None
  else
    theta <- (if negb native then getitem samples_dict "theta"
              else getitem samples_dict "theta_native") ;;
    theta_pairs_plot theta design_names native lims theta_ref save.

(** ** [mcmc_trace] *)

(** Python's [min] on two ints. *)
Definition py_min (a b : Z) : Z := if b <? a then b else a.

(** Lines 97-114: the sample indices to plot. *)
Definition trace_indices (samples_dict : dict ndarray) (start : Z)
    (end_ : option Z) (n_to_plot : Z) : Py (list Z) :=
  lamUz <- getitem samples_dict "lamUz" ;;
  let n_samples := Z.of_nat (shape0 lamUz) in
  let n_to_plot := if n_to_plot >? n_samples then n_samples else n_to_plot in
  let end_ := match end_ with None => n_samples - 1 | Some e => e end in
  if start <? 0 then raise (TypeError "invalid start index")
  else if (start >? end_) || (end_ <? 0) || (end_ >? n_samples) then
    raise (TypeError "invalid end index")
  else if end_ - start >? n_to_plot then
    idx <- np_linspace_int start end_ n_to_plot ;;
    ret (np_unique idx)
  else ret (np_arange start end_).

(** Lines 118-121: the number of axes when every trace has its own. *)
Definition count_plots (samples_dict : dict ndarray) (max_print : Z) : Py Z :=
  for_each (enumerate (keys samples_dict))
    (fun total_plots ik =>
       let k := snd ik in
       if (k =? "theta_native")%string then ret total_plots
       else
         a <- getitem samples_dict k ;;
         ret (total_plots + py_min (Z.of_nat (shape1 a)) max_print))
    0.

(** Lines 125-139: one block of the ungrouped plot; the state is
    [axs_idx]. *)
Definition trace_block (samples_dict : dict ndarray)
    (theta_names : option (list string)) (plot_idx : list Z) (max_print : Z)
    (axs : Z) (axs_idx : nat) (ik : nat * string) : Py nat :=
  let k := snd ik in
  if (k =? "theta_native")%string then ret axs_idx
  else
    a <- getitem samples_dict k ;;
    let n_theta := py_min (Z.of_nat (shape1 a)) max_print in
    if n_theta >? 1 then
      for_each (range n_theta)
        (fun axs_idx j =>
           y <- take_column a plot_idx j ;;
           ax <- axs_getitem axs axs_idx ;;
           emit (ELineplot k j plot_idx y ax None) ;;
           match theta_names with
           | Some names =>
               if (k =? "theta")%string then
                 ax <- axs_getitem axs axs_idx ;;
                 label <- list_getitem names j ;;
                 emit (ESetYLabel ax label)
               else
                 ax <- axs_getitem axs axs_idx ;;
                 emit (ESetYLabel ax (k ++ "_" ++ str_nat (j + 1))%string)
           | None =>
               ax <- axs_getitem axs axs_idx ;;
               emit (ESetYLabel ax (k ++ "_" ++ str_nat (j + 1))%string)
           end ;;
           ret (axs_idx + 1)%nat)
        axs_idx
    else
      y <- take_column a plot_idx 0 ;;
      ax <- axs_getitem axs axs_idx ;;
      emit (ELineplot k 0 plot_idx y ax None) ;;
      match theta_names with
      | Some names =>
          if (k =? "theta")%string then
            axs_set_ylabel axs (list_getitem names 0)
          else
            ax <- axs_getitem axs axs_idx ;;
            emit (ESetYLabel ax k)
      | None =>
          ax <- axs_getitem axs axs_idx ;;
          emit (ESetYLabel ax k)
      end ;;
      ret (axs_idx + 1)%nat.

(** [label = theta_names[j] if (i==0 and theta_names is not None) else
    other] *)
Definition group_label (theta_names : option (list string)) (i j : nat)
    (other : string) : Py string :=
  match theta_names with
  | Some names => if (i =? 0)%nat then list_getitem names j else ret other
  | None => ret other
  end.

(** Lines 147-159: one block of the grouped plot. *)
Definition trace_group (samples_dict : dict ndarray)
    (theta_names : option (list string)) (plot_idx : list Z) (max_print : Z)
    (axs : Z) (ik : nat * string) : Py unit :=
  let i := fst ik in
  let k := snd ik in
  if (k =? "theta_native")%string then ret tt
  else
    a <- getitem samples_dict k ;;
    let n_lines := py_min (Z.of_nat (shape1 a)) max_print in
    if n_lines >? 1 then
      for_ (range n_lines) (fun j =>
        y <- take_column a plot_idx j ;;
        ax <- axs_getitem axs i ;;
        label <- group_label theta_names i j (k ++ str_nat (j + 1))%string ;;
        emit (ELineplot k j plot_idx y ax (Some label))) ;;
      ax <- axs_getitem axs i ;;
      emit (ESetYLabel ax k) ;;
      ax <- axs_getitem axs i ;;
      (* ncol = int(np.ceil(n_lines/5)) *)
      emit (ELegend ax ((n_lines + 4) / 5))
    else
      y <- take_column a plot_idx 0 ;;
      ax <- axs_getitem axs i ;;
      emit (ELineplot k 0 plot_idx y ax None) ;;
      ax <- axs_getitem axs i ;;
      label <- group_label theta_names i 0 k ;;
      emit (ESetYLabel ax label).

Definition mcmc_trace (samples_dict : dict ndarray)
    (theta_names : option (list string)) (start : Z) (end_ : option Z)
    (n_to_plot : Z) (by_group : bool) (max_print : Z) (save : option string)
    : Py figure :=
  plot_idx <- trace_indices samples_dict start end_ n_to_plot ;;
  if negb by_group then
    total_plots <- count_plots samples_dict max_print ;;
    axs <- plt_subplots total_plots ;;
    for_each (enumerate (keys samples_dict))
      (trace_block samples_dict theta_names plot_idx max_print axs) 0%nat ;;
    savefig save ;;
    ret (SubplotsFig total_plots)
  else
    let n_axes :=
      if contains samples_dict "theta_native"
      then Z.of_nat (length samples_dict) - 1
      else Z.of_nat (length samples_dict) in
    axs <- plt_subplots n_axes ;;
    for_ (enumerate (keys samples_dict))
      (trace_group samples_dict theta_names plot_idx max_print axs) ;;
    savefig save ;;
    ret (SubplotsFig n_axes).

(** ** [param_stats] *)

(** The five lists that the loop of [param_stats] fills. *)
Record stats_lists : Type := mk_stats {
  st_mean : list Q;
  st_sd : list Q;
  st_keys : list string;
  st_q1 : list Q;
  st_q2 : list Q
}.

Definition no_stats : stats_lists := mk_stats [] [] [] [] [].

(** Lines 191-197: the statistics and the label of column [j] of block
    [k], the [i]-th key. *)
Definition stats_column (np : Numerics) (theta_names : option (list string))
    (q1 q2 : Q) (digits : Z) (i : nat) (k : string) (a : ndarray)
    (st : stats_lists) (j : nat) : Py stats_lists :=
  let n_param := shape1 a in
  let mean := st_mean st ++ [np_round np (np_mean np (column a j)) digits] in
  let sd := st_sd st ++ [np_round np (np_std np (column a j)) digits] in
  v1 <- quantile np (column a j) q1 ;;
  let q1_list := st_q1 st ++ [np_round np v1 digits] in
  v2 <- quantile np (column a j) q2 ;;
  let q2_list := st_q2 st ++ [np_round np v2 digits] in
  key <- match theta_names with
         | Some names =>
             if (i =? 0)%nat then list_getitem names j
             else if (1 <? n_param)%nat
             then ret (k ++ "_" ++ str_nat (j + 1))%string
             else ret k
         | None =>
             if (1 <? n_param)%nat
             then ret (k ++ "_" ++ str_nat (j + 1))%string
             else ret k
         end ;;
  ret (mk_stats mean sd (st_keys st ++ [key]) q1_list q2_list).

(** Lines 188-197: one block. *)
Definition stats_block (np : Numerics) (samples_dict : dict ndarray)
    (theta_names : option (list string)) (q1 q2 : Q) (digits : Z)
    (st : stats_lists) (ik : nat * string) : Py stats_lists :=
  a <- getitem samples_dict (snd ik) ;;
  for_each (seq 0 (shape1 a))
    (stats_column np theta_names q1 q2 digits (fst ik) (snd ik) a) st.

(** Lines 198-199: the DataFrame is built from a dict literal, so that
    equal column names make one column. *)
Definition stats_frame (np : Numerics) (q1 q2 : Q) (st : stats_lists)
    : DataFrame :=
  mk_df (st_keys st)
    (dict_of_items
       [ ("mean", st_mean st);
         ("sd", st_sd st);
         (str_float np q1 ++ " quantile", st_q1 st)%string;
         (str_float np q2 ++ " quantile", st_q2 st)%string ]).

(** Lines 183-200. *)
Definition stats_table (np : Numerics) (samples_dict : dict ndarray)
    (theta_names : option (list string)) (q1 q2 : Q) (digits : Z)
    : Py (option DataFrame) :=
  st <- for_each (enumerate (keys samples_dict))
          (stats_block np samples_dict theta_names q1 q2 digits) no_stats ;;
  ret (Some (stats_frame np q1 q2 st)).

(** [print('theta_names should have', n_theta, 'entries')] *)
Definition names_message (n_theta : nat) : string :=
  "theta_names should have " ++ str_nat n_theta ++ " entries".

Definition param_stats (np : Numerics) (samples_dict : dict ndarray)
    (theta_names : option (list string)) (q1 q2 : Q) (digits : Z)
    : Py (option DataFrame) :=
  if contains samples_dict "theta" then
    theta <- getitem samples_dict "theta" ;;
    let n_theta := shape1 theta in
    match theta_names with
    | Some names =>
        if negb (length names =? n_theta)%nat then
          emit (EPrint (names_message n_theta)) ;;
          ret None
        else stats_table np samples_dict theta_names q1 q2 digits
    | None => stats_table np samples_dict theta_names q1 q2 digits
    end
  else stats_table np samples_dict theta_names q1 q2 digits.

(** ** [rho_box_plots] *)




(** ** What the claims speak of *)

(** The parameter columns of every block, in the order of the dict. *)
Definition block_columns (a : ndarray) : list (list Q) :=
  map (column a) (seq 0 (shape1 a)).

Definition all_columns (d : dict ndarray) : list (list Q) :=
  flat_map (fun kv => block_columns (snd kv)) d.

(** The row label of column [j] of block [k], the [i]-th key, of width
    [n_param]. *)
Definition column_label (theta_names : option (list string)) (i : nat)
    (k : string) (n_param j : nat) : string :=
  let default :=
    if (1 <? n_param)%nat then (k ++ "_" ++ str_nat (j + 1))%string else k in
  match theta_names with
  | Some names => if (i =? 0)%nat then nth j names ""%string else default
  | None => default
  end.

Definition block_labels (theta_names : option (list string)) (i : nat)
    (k : string) (a : ndarray) : list string :=
  map (column_label theta_names i k (shape1 a)) (seq 0 (shape1 a)).

Fixpoint labels_from (theta_names : option (list string)) (i : nat)
    (d : dict ndarray) : list string :=
  match d with
  | [] => []
  | (k, a) :: d' =>
      block_labels theta_names i k a ++ labels_from theta_names (S i) d'
  end.

(** The table that the spec describes: one row per parameter column of
    every block, with the rounded mean, standard deviation and the two
    quantiles of the column. *)
Definition stats_spec (np : Numerics) (theta_names : option (list string))
    (q1 q2 : Q) (digits : Z) (d : dict ndarray) : stats_lists :=
  let cols := all_columns d in
  mk_stats
    (map (fun c => np_round np (np_mean np c) digits) cols)
    (map (fun c => np_round np (np_std np c) digits) cols)
    (labels_from theta_names 0 d)
    (map (fun c => np_round np (np_quantile np c q1) digits) cols)
    (map (fun c => np_round np (np_quantile np c q2) digits) cols).

(** A quantile level that [np.quantile] accepts. *)
Definition level_ok (q : Q) : Prop := (0 <= q /\ q <= 1)%Q.

(** The label list of [param_stats] names the theta block: there is none,
    or theta is the first block and has one name per column. *)
Definition names_fit (theta_names : option (list string)) (d : dict ndarray)
    : Prop :=
  match theta_names with
  | None => True
  | Some names =>
      exists theta rest,
        d = ("theta"%string, theta) :: rest /\ length names = shape1 theta
  end.

(** No [sns.lineplot] call takes its data from block [k]. *)
Definition not_plotted (k : string) (ev : event) : Prop :=
  match ev with
  | ELineplot k' _ _ _ _ _ => k' <> k
  | _ => True
  end.

(** The blocks that [mcmc_trace] plots: all but ['theta_native']. *)
Definition plotted_blocks (d : dict ndarray) : dict ndarray :=
  filter (fun kv => negb (fst kv =? "theta_native")%string) d.

(** The axes of the figure of [mcmc_trace]: one per plotted block, or,
    when the traces are not grouped, one per trace, at most [max_print]
    for a block. *)
Definition axes_wanted (d : dict ndarray) (by_group : bool) (max_print : Z)
    : Z :=
  if by_group then Z.of_nat (length (plotted_blocks d))
  else
    fold_right
      (fun kv n => py_min (Z.of_nat (shape1 (snd kv))) max_print + n) 0
      (plotted_blocks d).

(** A figure is only made with [n] axes. *)
Definition axes_are (n : Z) (ev : event) : Prop :=
  match ev with
  | ESubplots m => m = n
  | _ => True
  end.




(** No autocorrelation is computed. *)
Definition no_acf (ev : event) : Prop :=
  match ev with
  | EAcf _ _ _ => False
  | _ => True
  end.

(** [alpha] lies in the open interval (0,1). *)
Definition in_unit (alpha : pyfloat) : Prop :=
  match alpha with
  | Fin a => (0 < a /\ a < 1)%Q
  | _ => False
  end.

(** Every event of a call satisfies [P]. *)
Definition all_events {A} (P : event -> Prop) (m : Py A) : Prop :=
  Forall P (trace m).

(** Every block holds at least one sample. *)
Definition has_samples (d : dict ndarray) : Prop :=
  Forall (fun kv => (0 < shape0 (snd kv))%nat) d.

(** The label check of [param_stats] lets the call through. *)
Definition names_pass (theta_names : option (list string)) (d : dict ndarray)
    : Prop :=
  match theta_names, dict_get d "theta" with
  | Some names, Some theta => length names = shape1 theta
  | _, _ => True
  end.

(** The names are long enough for the block that they label. *)
Definition names_cover (theta_names : option (list string)) (i : nat)
    (a : ndarray) : Prop :=
  match theta_names with
  | Some names => i = 0%nat -> (shape1 a <= length names)%nat
  | None => True
  end.

(** Appending the lists of two states. *)
Definition stats_app (st st' : stats_lists) : stats_lists :=
  mk_stats (st_mean st ++ st_mean st') (st_sd st ++ st_sd st')
           (st_keys st ++ st_keys st') (st_q1 st ++ st_q1 st')
           (st_q2 st ++ st_q2 st').

(** What columns [js] of block [k] add to the lists. *)
Definition block_stats (np : Numerics) (theta_names : option (list string))
    (q1 q2 : Q) (digits : Z) (i : nat) (k : string) (a : ndarray)
    (js : list nat) : stats_lists :=
  mk_stats
    (map (fun j => np_round np (np_mean np (column a j)) digits) js)
    (map (fun j => np_round np (np_std np (column a j)) digits) js)
    (map (column_label theta_names i k (shape1 a)) js)
    (map (fun j => np_round np (np_quantile np (column a j) q1) digits) js)
    (map (fun j => np_round np (np_quantile np (column a j) q2) digits) js).

Fixpoint stats_from (np : Numerics) (theta_names : option (list string))
    (q1 q2 : Q) (digits : Z) (i : nat) (items : dict ndarray) : stats_lists :=
  match items with
  | [] => no_stats
  | (k, a) :: rest =>
      stats_app
        (block_stats np theta_names q1 q2 digits i k a (seq 0 (shape1 a)))
        (stats_from np theta_names q1 q2 digits (S i) rest)
  end.


(** ** Reference numerics

    Exact rational versions of the numpy functions, used to run the
    embedding on concrete data: the square root and the exponential are
    cut to a fixed precision. *)
Module Ref.

Definition sum (l : list Q) : Q := fold_left Qplus l 0%Q.

Definition mean (l : list Q) : Q :=
  Qred (sum l / inject_Z (Z.of_nat (length l))).

Definition sqrt (x : Q) : Q :=
  Qred (Z.sqrt (Qfloor (x * inject_Z (10 ^ 24))) # (10 ^ 12)).

Definition std (l : list Q) : Q :=
  let m := mean l in
  sqrt (mean (map (fun x => (x - m) * (x - m))%Q l)).

Fixpoint insert (x : Q) (l : list Q) : list Q :=
  match l with
  | [] => [x]
  | y :: l' => if Qle_bool x y then x :: l else y :: insert x l'
  end.

Definition sort (l : list Q) : list Q := fold_right insert [] l.

(** Linear interpolation between the two closest ranks. *)
Definition quantile (l : list Q) (q : Q) : Q :=
  let s := sort l in
  let h := (inject_Z (Z.of_nat (length l) - 1) * q)%Q in
  let lo := Qfloor h in
  let x0 := nth (Z.to_nat lo) s 0%Q in
  let x1 := nth (Z.to_nat (lo + 1)) s x0 in
  Qred (x0 + (h - inject_Z lo) * (x1 - x0)).

(** Rounding to [digits] decimals, halves to the even neighbour. *)
Definition round (x : Q) (digits : Z) : Q :=
  let scale := Qpower 10 digits in
  let y := (x * scale)%Q in
  let f := Qfloor y in
  let r := (y - inject_Z f)%Q in
  let n :=
    if Qle_bool r (1 # 2) then
      if Qle_bool (1 # 2) r then (if Z.even f then f else f + 1) else f
    else f + 1 in
  Qred (inject_Z n / scale).

Fixpoint exp_terms (n : nat) (k : Z) (term x : Q) : Q :=
  match n with
  | O => 0%Q
  | S n' => (term + exp_terms n' (k + 1) (Qred (term * x / inject_Z k)) x)%Q
  end.

Definition exp (x : Q) : Q := Qred (exp_terms 16 1 1 x).

Fixpoint frac_digits (fuel : nat) (r : Q) : string :=
  match fuel with
  | O => ""
  | S fuel' =>
      let y := (r * 10)%Q in
      let d := Qfloor y in
      let r' := Qred (y - inject_Z d) in
      (str_nat (Z.to_nat d)
       ++ (if Qeq_bool r' 0 then "" else frac_digits fuel' r'))%string
  end.

Definition str_float (x : Q) : string :=
  let a := Qabs x in
  let f := Qfloor a in
  ((if Qle_bool 0 x then "" else "-")
   ++ str_nat (Z.to_nat f) ++ "."
   ++ frac_digits 17 (Qred (a - inject_Z f)))%string.

Definition numerics : Numerics :=
  mk_numerics mean std quantile round exp str_float.

End Ref.

(** ** Sample data *)

Definition theta_samples : ndarray :=
  mk_array 2 [[1 # 10; 1 # 2]; [3 # 10; 1 # 4]; [1 # 5; 3 # 4]]%Q.

Definition theta_native_samples : ndarray :=
  mk_array 2 [[11; 25]; [13; 22]; [12; 27]]%Q.

Definition lamUz_samples : ndarray :=
  mk_array 1 [[1]; [2]; [4]]%Q.

Definition betaU_samples : ndarray :=
  mk_array 2 [[0; 4]; [4; 8]; [8; 0]]%Q.

Definition calib_samples : dict ndarray :=
  [ ("theta", theta_samples); ("lamUz", lamUz_samples);
    ("theta_native", theta_native_samples) ]%string.

Definition sim_samples : dict ndarray :=
  [ ("betaU", betaU_samples); ("lamUz", lamUz_samples) ]%string.

Definition no_acf_result : acf_dict := mk_acf (ModelFig 0) [].

Definition param_of (kv : string * ndarray) : SepiaParam :=
  mk_param (fst kv) (fun _ => snd kv).

Definition calib_model : SepiaModel :=
  mk_model (mk_num 1 1 1 false)
    (map param_of [ ("theta", theta_samples); ("betaU", betaU_samples);
                    ("lamUz", lamUz_samples) ]%string)
    3 (fun _ _ _ _ => no_acf_result).

Definition sim_model : SepiaModel :=
  mk_model (mk_num 1 1 1 true)
    (map param_of sim_samples) 3 (fun _ _ _ _ => no_acf_result).

(** ** The designs of [test_KronSetupLogLik.py]

    The script builds one simulation design twice: as a joint matrix
    ([x_sim]) and as a list of factor matrices ([x_sim_kron]), and then the
    same for a calibration design. *)
Module KronTest.

(** [np.linspace(a, b, n)] on floats. *)
Definition linspace (a b : Q) (n : nat) : list Q :=
  map (fun i => Qred (a + inject_Z (Z.of_nat i) * (b - a)
                          / inject_Z (Z.of_nat n - 1)))
      (seq 0 n).

(** [v.reshape(-1, 1)] *)
Definition as_column (v : list Q) : list (list Q) := map (fun x => [x]) v.

(** [np.hstack((a, b))] on matrices with the same number of rows. *)
Definition hstack (a b : list (list Q)) : list (list Q) :=
  map (fun rr => fst rr ++ snd rr) (combine a b).

(** [np.meshgrid(range(n), range(m))]: two matrices of [m] rows and [n]
    columns. *)
Definition meshgrid (n m : nat) : list (list nat) * list (list nat) :=
  (map (fun _ => seq 0 n) (seq 0 m), map (fun i => repeat i n) (seq 0 m)).

(** [r.reshape(-1, order='F')] of a matrix with [n] columns: column after
    column. *)
Definition flatten_F (n : nat) (r : list (list nat)) : list nat :=
  flat_map (fun j => map (fun row => nth j row 0%nat) r) (seq 0 n).

(** [a[idx, :]] *)
Definition take (a : list (list Q)) (idx : list nat) : list (list Q) :=
  map (fun i => nth i a []) idx.

Definition x1 : list (list Q) :=
  hstack (as_column (linspace 0 1 3)) (as_column (linspace 1 0 3)).

Definition x2 : list (list Q) := as_column (linspace 0 1 4).

Definition r1 : list (list nat) := fst (meshgrid (length x1) (length x2)).
Definition r2 : list (list nat) := snd (meshgrid (length x1) (length x2)).

Definition x_sim : list (list Q) :=
  hstack (take x1 (flatten_F (length x1) r1))
         (take x2 (flatten_F (length x1) r2)).

Definition x_sim_kron : list (list (list Q)) := [x1; x2].

(** [x_sim_cal], [t_sim_cal] and [xt_sim_sep] of the calibration model. *)
Definition x_sim_cal : list (list Q) :=
  hstack (repeat [1 # 2] (length x_sim)) (map (firstn 1) x_sim).

Definition t_sim_cal : list (list Q) := map (skipn 1) x_sim.

Definition xt_sim_sep : list (list (list Q)) := [[1 # 2]] :: x_sim_kron.

(** Lines 14-16 for any two factor matrices: the rows of [a] and [b]
    picked through the two index grids of [np.meshgrid]. *)
Definition grid_design (a b : list (list Q)) : list (list Q) :=
  let r := meshgrid (length a) (length b) in
  hstack (take a (flatten_F (length a) (fst r)))
         (take b (flatten_F (length a) (snd r))).

(** Lines 48-49 for any joint matrix [xs]: [x_sim_cal] beside [t_sim_cal]. *)
Definition cal_design (xs : list (list Q)) : list (list Q) :=
  hstack (hstack (repeat [1 # 2] (length xs)) (map (firstn 1) xs))
         (map (skipn 1) xs).

(** Modelled from the spec: the joint design that a list of factors
    stands for (the design encoder is not among the source files): the
    Cartesian product of the rows, the first factor varying slowest. *)
Fixpoint joint_design (factors : list (list (list Q))) : list (list Q) :=
  match factors with
  | [] => [[]]
  | f :: rest =>
      flat_map (fun row => map (fun tail => row ++ tail) (joint_design rest)) f
  end.

End KronTest.

(** ** What the further properties speak of *)

(** The parameter that the loop of [plot_acf] ends on: the last one named
    ['theta']. *)
Definition last_theta (params : list SepiaParam) : option SepiaParam :=
  find (fun p => (name p =? "theta")%string) (rev params).

(** The resolved [end] of [mcmc_trace]. *)
Definition end_index (end_ : option Z) (n_samples : Z) : Z :=
  match end_ with
  | None => n_samples - 1
  | Some e => e
  end.

(** A line of a trace plot has one value per sample index, and shows
    column 0 or a column below [max_print]. *)
Definition line_ok (max_print : Z) (ev : event) : Prop :=
  match ev with
  | ELineplot _ col x y _ _ =>
      length y = length x /\ (col = 0%nat \/ Z.of_nat col < max_print)
  | _ => True
  end.

(** The sample indices of a line lie between [lo] and [hi], grow strictly,
    and are at most [count]. *)
Definition in_window (lo hi count : Z) (ev : event) : Prop :=
  match ev with
  | ELineplot _ _ x _ _ _ =>
      Forall (fun r => lo <= r <= hi) x
      /\ StronglySorted Z.lt x
      /\ Z.of_nat (length x) <= count
  | _ => True
  end.

(** The rows handed to the pairs plot or to the distribution plot are
    [min(n_samp - 1, 1000)] rows of the array [a]. *)
Definition thinned (a : ndarray) (ev : event) : Prop :=
  match ev with
  | EPairGrid _ data | EDistplot data _ =>
      Z.of_nat (length data) = Z.min (Z.of_nat (shape0 a) - 1) 1000
      /\ Forall (fun r => In r (rows a)) data
  | _ => True
  end.

(** Every axis limit that is set is the unit interval. *)
Definition unit_limits (ev : event) : Prop :=
  match ev with
  | EDiagXLim _ lo hi | ESetXLim _ _ lo hi | ESetYLim _ _ lo hi =>
      lo = 0%Q /\ hi = 1%Q
  | _ => True
  end.

(** No axis limit is set. *)
Definition no_limits (ev : event) : Prop :=
  match ev with
  | EDiagXLim _ _ _ | ESetXLim _ _ _ _ | ESetYLim _ _ _ _ => False
  | _ => True
  end.

(** The limit calls of a pairs plot of [n] thetas, all with the unit
    interval: for each [i], the x limits of the diagonal axis and of
    [axes[i, i]], and for [j <> i] the x and y limits of [axes[i, j]]. *)
Definition unit_limit_events (n : nat) : list event :=
  flat_map (fun i =>
    flat_map (fun j =>
      if (i =? j)%nat then [EDiagXLim i 0 1; ESetXLim i i 0 1]
      else [ESetXLim i j 0 1; ESetYLim i j 0 1])
    (seq 0 n))
  (seq 0 n).

(** The column names of the data frame of [theta_pairs]: the design names,
    by default ['theta_1', ..., 'theta_n']. *)
Definition names_used (design_names : option (list string)) (n_theta : nat)
    : list string :=
  match design_names with
  | Some l => l
  | None => map (fun i => "theta_" ++ str_nat (i + 1))%string (seq 0 n_theta)
  end.

(** * Properties *)

(** ** The monad *)

Lemma bind_ret {A B} (a : A) (f : A -> Py B) : bind (ret a) f = f a.
Proof. unfold bind, ret. destruct (f a). reflexivity. Qed.

Lemma bind_raise {A B} (e : exn) (f : A -> Py B) : bind (raise e) f = raise e.
Proof. reflexivity. Qed.

Lemma bind_silent {A B} (m : Py A) (f : A -> Py B) (a : A) :
  m = ([], Ok a) -> bind m f = f a.
Proof. intros ->. apply bind_ret. Qed.

Lemma bind_fails {A B} (m : Py A) (f : A -> Py B) (t : list event) (e : exn) :
  m = (t, Raise e) -> bind m f = (t, Raise e).
Proof. intros ->. reflexivity. Qed.

Lemma all_events_ret {A} P (a : A) : all_events P (ret a).
Proof. constructor. Qed.

Lemma all_events_raise {A} P e : all_events P (@raise A e).
Proof. constructor. Qed.

Lemma all_events_emit P ev : P ev -> all_events P (emit ev).
Proof. intros H. constructor; [exact H | constructor]. Qed.

Lemma all_events_bind {A B} P (m : Py A) (f : A -> Py B) :
  all_events P m -> (forall a, all_events P (f a)) -> all_events P (bind m f).
Proof.
  unfold all_events, trace, bind. intros Hm Hf.
  destruct m as [t [a | e]]; simpl in *.
  - specialize (Hf a). destruct (f a) as [t' r]. simpl in *.
    apply Forall_app. split; assumption.
  - exact Hm.
Qed.

Lemma all_events_for_each {A S} P (l : list A) (body : S -> A -> Py S) :
  (forall s x, all_events P (body s x)) ->
  forall s, all_events P (for_each l body s).
Proof.
  intros Hbody. induction l as [| x l IH]; intros s; simpl.
  - apply all_events_ret.
  - apply all_events_bind; [apply Hbody | exact IH].
Qed.

Lemma all_events_for P {A} (l : list A) (body : A -> Py unit) :
  (forall x, all_events P (body x)) -> all_events P (for_ l body).
Proof. intros H. apply all_events_for_each. intros _ x. apply H. Qed.

Lemma all_events_bind_ok {A B} P (m : Py A) (f : A -> Py B) :
  all_events P m ->
  (forall a, outcome m = Ok a -> all_events P (f a)) ->
  all_events P (bind m f).
Proof.
  unfold all_events, trace, outcome, bind. intros Hm Hf.
  destruct m as [t [a | e]]; simpl in *; [| exact Hm].
  specialize (Hf a eq_refl). destruct (f a) as [t' r]. simpl in *.
  apply Forall_app. split; assumption.
Qed.

Lemma all_events_for_each_in {A S} P (l : list A) (body : S -> A -> Py S) :
  (forall s x, In x l -> all_events P (body s x)) ->
  forall s, all_events P (for_each l body s).
Proof.
  induction l as [| x l IH]; intros Hbody s; simpl.
  - apply all_events_ret.
  - apply all_events_bind.
    + apply Hbody. left. reflexivity.
    + apply IH. intros s' y Hy. apply Hbody. right. exact Hy.
Qed.

Lemma all_events_getitem {V} P (d : dict V) k : all_events P (getitem d k).
Proof. unfold getitem. destruct (dict_get d k); constructor. Qed.

Lemma all_events_list_getitem {A} P (l : list A) i :
  all_events P (list_getitem l i).
Proof. unfold list_getitem. destruct (nth_error l i); constructor. Qed.

Lemma all_events_take_rows P a idx : all_events P (take_rows a idx).
Proof.
  unfold take_rows. apply all_events_for_each. intros acc r.
  apply all_events_bind.
  - unfold row_at.
    destruct ((r <? - Z.of_nat (shape0 a)) || (Z.of_nat (shape0 a) <=? r));
      [constructor |].
    destruct (nth_error _ _); constructor.
  - intros row. apply all_events_ret.
Qed.

Lemma all_events_take_column P a idx j : all_events P (take_column a idx j).
Proof.
  unfold take_column. destruct (shape1 a <=? j)%nat; [constructor |].
  apply all_events_bind; [apply all_events_take_rows |].
  intros picked. apply all_events_ret.
Qed.

Lemma all_events_axs_getitem P axs i : all_events P (axs_getitem axs i).
Proof.
  unfold axs_getitem. destruct (axs =? 1); [constructor |].
  destruct (Z.of_nat i <? axs); constructor.
Qed.

Lemma all_events_linspace P a b n : all_events P (np_linspace_int a b n).
Proof.
  unfold np_linspace_int. destruct (n <? 0); [constructor |].
  destruct (n =? 1); constructor.
Qed.

(** ** Dictionaries *)

Lemma dict_get_in_keys {V} (d : dict V) k :
  In k (keys d) -> exists v, dict_get d k = Some v.
Proof.
  induction d as [| [k' v'] d IH]; simpl; [intros [] |].
  intros [-> | Hin].
  - rewrite String.eqb_refl. eauto.
  - destruct (k' =? k)%string; eauto.
Qed.

Lemma dict_get_item {V} (d : dict V) k v :
  wf_dict d -> In (k, v) d -> dict_get d k = Some v.
Proof.
  unfold wf_dict, keys.
  induction d as [| [k' v'] d IH]; simpl; [intros _ [] |].
  intros Hnd [Heq | Hin].
  - inversion Heq; subst. rewrite String.eqb_refl. reflexivity.
  - inversion Hnd as [| ? ? Hnotin Hnd']; subst.
    destruct (String.eqb_spec k' k) as [-> | _].
    + exfalso. apply Hnotin. apply (in_map fst) in Hin. exact Hin.
    + apply IH; assumption.
Qed.

(** ** [plot_acf] *)

Lemma alpha_check (alpha : Q) :
  Qle_bool alpha 0 || Qle_bool 1 alpha = false <-> (0 < alpha /\ alpha < 1)%Q.
Proof.
  rewrite orb_false_iff. split.
  - intros [H0 H1]. split; apply Qnot_le_lt; intros H;
      apply Qle_bool_iff in H; congruence.
  - intros [H0 H1]. split;
      (destruct (Qle_bool _ _) eqn:E; [| reflexivity]);
      apply Qle_bool_iff in E; exfalso;
      [ apply (Qlt_not_le _ _ H0) | apply (Qlt_not_le _ _ H1) ]; exact E.
Qed.

(** The comparisons of line 241 let through the values of (0,1), and
    NaN. *)
Lemma float_check (alpha : pyfloat) :
  float_le alpha (Fin 0) || float_le (Fin 1) alpha = false
  <-> in_unit alpha \/ alpha = NaN.
Proof.
  destruct alpha as [a | | |]; cbn [float_le in_unit].
  - rewrite alpha_check. split; [tauto |].
    intros [H | H]; [exact H | discriminate H].
  - split; [discriminate |]. intros [[] | H]. discriminate H.
  - split; [discriminate |]. intros [[] | H]. discriminate H.
  - split; [right; reflexivity | reflexivity].
Qed.

Lemma plot_acf_guards
    (model : SepiaModel) (nlags nburn : Z) (alpha : pyfloat)
    (save : option string) :
  get_num_samples model < nlags \/ (~ in_unit alpha /\ alpha <> NaN) ->
  exists msg,
    plot_acf model nlags nburn alpha save = ([], Raise (ValueError msg)).
Proof.
  intros H. unfold plot_acf.
  destruct (nlags >? get_num_samples model) eqn:Hlags; [eexists; reflexivity |].
  destruct (float_le alpha (Fin 0) || float_le (Fin 1) alpha) eqn:Halpha;
    [eexists; reflexivity |].
  exfalso. destruct H as [H | [H Hnan]].
  - rewrite Z.gtb_ltb in Hlags. apply Z.ltb_ge in Hlags. lia.
  - apply float_check in Halpha. tauto.
Qed.

(** X15. [plot_acf] raises [ValueError] whenever [nlags] exceeds the number
    of samples of the model, and whenever [alpha] is a float other than NaN
    that is not in the open interval (0,1), the infinities included; in
    both cases nothing has been printed, plotted or computed before: the
    trace of the call is empty. *)
Theorem plot_acf_rejects_bad_arguments
    (model : SepiaModel) (nlags nburn : Z) (alpha : pyfloat)
    (save : option string) :
  get_num_samples model < nlags \/ (~ in_unit alpha /\ alpha <> NaN) ->
  exists msg,
    plot_acf model nlags nburn alpha save = ([], Raise (ValueError msg))
    /\ all_events no_acf (plot_acf model nlags nburn alpha save).
Proof.
  intros H. destruct (plot_acf_guards model nlags nburn alpha save H) as [msg E].
  exists msg. split; [exact E |]. rewrite E. constructor.
Qed.

Lemma plot_acf_rejects_bad_arguments_witness :
  (exists msg, plot_acf calib_model 10 0 (Fin (1 # 20)) None
               = ([], Raise (ValueError msg))
               /\ all_events no_acf
                    (plot_acf calib_model 10 0 (Fin (1 # 20)) None))
  /\ (exists msg, plot_acf calib_model 2 0 (Fin (3 # 2)) None
                  = ([], Raise (ValueError msg))
                  /\ all_events no_acf
                       (plot_acf calib_model 2 0 (Fin (3 # 2)) None))
  /\ (exists msg, plot_acf calib_model 2 0 PInf None
                  = ([], Raise (ValueError msg))
                  /\ all_events no_acf (plot_acf calib_model 2 0 PInf None)).
Proof.
  repeat split; apply plot_acf_rejects_bad_arguments.
  - left. reflexivity.
  - right. split; [intros [_ H]; discriminate H | discriminate].
  - right. split; [intros [] | discriminate].
Defined.

(** The checks of [plot_acf] pass on an [alpha] of (0,1), and on NaN. *)
Lemma plot_acf_checked (model : SepiaModel) nlags nburn alpha save :
  nlags <= get_num_samples model -> in_unit alpha \/ alpha = NaN ->
  plot_acf model nlags nburn alpha save =
  if sim_only (num model) then
    ([EPrint "ACF needs thetas but this is a sim-only model."], Ok None)
  else
    match theta_chain (mcmcList model) with
    | None => raise (UnboundLocalError "chain")
    | Some chain =>
        emit (EAcf chain nlags alpha) ;;
        match save with
        | Some file => emit (ESavefig file)
        | None => ret tt
        end ;;
        ret (Some (acf model chain nlags true alpha))
    end.
Proof.
  intros Hlags Halpha. unfold plot_acf.
  replace (nlags >? get_num_samples model) with false
    by (symmetry; rewrite Z.gtb_ltb; apply Z.ltb_ge; lia).
  apply float_check in Halpha. rewrite Halpha.
  destruct (sim_only (num model)); reflexivity.
Qed.

(** C3. The lag check holds as claimed, and so does the check of [alpha] on
    every ordered value; the claim fails on the code for NaN.  NaN is not
    in (0,1), but both comparisons of line 241 are false on it: with a lag
    count that the model allows, [plot_acf] raises nothing, hands NaN to
    [model.acf] on a model with observations, and prints its message and
    returns [None] on a sim-only model. *)
Theorem plot_acf_accepts_nan :
  ~ in_unit NaN
  /\ plot_acf calib_model 2 0 NaN None
     = ([EAcf (transpose theta_samples) 2 NaN], Ok (Some no_acf_result))
  /\ plot_acf sim_model 2 0 NaN None
     = ([EPrint "ACF needs thetas but this is a sim-only model."], Ok None)
  /\ forall model nlags nburn save,
       raises (plot_acf model nlags nburn NaN save) = true ->
       get_num_samples model < nlags
       \/ (sim_only (num model) = false
           /\ theta_chain (mcmcList model) = None).
Proof.
  split; [intros [] |]. split; [reflexivity |]. split; [reflexivity |].
  intros model nlags nburn save Hraise.
  destruct (Z.lt_ge_cases (get_num_samples model) nlags) as [Hlt | Hge];
    [left; exact Hlt | right].
  rewrite plot_acf_checked in Hraise by (try assumption; right; reflexivity).
  destruct (sim_only (num model)); [discriminate Hraise |].
  split; [reflexivity |].
  destruct (theta_chain (mcmcList model)); [| reflexivity].
  destruct save; discriminate Hraise.
Qed.

Lemma plot_acf_accepts_nan_witness :
  get_num_samples calib_model < 10
  \/ (sim_only (num calib_model) = false
      /\ theta_chain (mcmcList calib_model) = None).
Proof.
  apply (proj2 (proj2 (proj2 plot_acf_accepts_nan)) calib_model 10 0 None).
  reflexivity.
Defined.

(** C4 fails as stated: on a sim-only model with three samples, asking for
    ten lags raises. *)
Lemma plot_acf_sim_only_can_raise :
  plot_acf sim_model 10 0 (Fin (1 # 20)) None
  = ([], Raise (ValueError
                  "plot_acf: must have more samples than requested lag size")).
Proof. reflexivity. Qed.

(** C4, amended. On a sim-only model, [plot_acf] called with at most as
    many lags as there are samples and with [alpha] in (0,1) prints a
    message and returns [None], without raising and without computing
    anything; [theta_pairs] on a samples dictionary without the key
    ['theta'] prints a message and returns [None], whatever its other
    arguments. *)
Theorem sim_only_diagnostics_are_handled :
  (forall model nlags nburn alpha save,
      sim_only (num model) = true ->
      nlags <= get_num_samples model -> in_unit alpha ->
      plot_acf model nlags nburn alpha save
      = ([EPrint "ACF needs thetas but this is a sim-only model."], Ok None))
  /\ (forall samples_dict design_names native lims theta_ref save,
         contains samples_dict "theta" = false ->
         theta_pairs samples_dict design_names native lims theta_ref save
         = ([EPrint "No thetas to plot"], Ok None)).
Proof.
  split.
  - intros model nlags nburn alpha save Hsim Hlags Halpha.
    rewrite plot_acf_checked by (try assumption; left; assumption).
    rewrite Hsim. reflexivity.
  - intros d names native lims theta_ref save Hno.
    unfold theta_pairs. rewrite Hno. reflexivity.
Qed.

Lemma sim_only_diagnostics_are_handled_witness :
  plot_acf sim_model 2 0 (Fin (1 # 20)) (Some "acf.png")
  = ([EPrint "ACF needs thetas but this is a sim-only model."], Ok None)
  /\ theta_pairs sim_samples None true None None None
     = ([EPrint "No thetas to plot"], Ok None).
Proof.
  split.
  - apply (proj1 sim_only_diagnostics_are_handled).
    + reflexivity.
    + simpl. lia.
    + split; reflexivity.
  - apply (proj2 sim_only_diagnostics_are_handled). reflexivity.
Defined.

(** C5 fails as stated: on a sim-only model, a valid request for the
    autocorrelation of theta does not raise; it prints and returns [None]. *)
Lemma plot_acf_sim_only_returns :
  plot_acf sim_model 2 0 (Fin (1 # 20)) None
  = ([EPrint "ACF needs thetas but this is a sim-only model."], Ok None)
  /\ raises (plot_acf sim_model 2 0 (Fin (1 # 20)) None) = false.
Proof. split; reflexivity. Qed.

(** C5, amended. On a sim-only model, [plot_acf] called with an [alpha]
    other than NaN raises an error exactly when [nlags] exceeds the number
    of samples or [alpha] is not in (0,1); the request for theta
    diagnostics itself raises nothing. *)
Theorem plot_acf_sim_only_raises_iff
    (model : SepiaModel) (nlags nburn : Z) (alpha : pyfloat)
    (save : option string) :
  sim_only (num model) = true ->
  alpha <> NaN ->
  raises (plot_acf model nlags nburn alpha save) = true
  <-> (get_num_samples model < nlags \/ ~ in_unit alpha).
Proof.
  intros Hsim Hnan. split.
  - intros Hraise.
    destruct (Z.lt_ge_cases (get_num_samples model) nlags) as [Hlt | Hge];
      [left; exact Hlt |].
    right. intros Halpha.
    rewrite plot_acf_checked in Hraise by (try assumption; left; assumption).
    rewrite Hsim in Hraise. discriminate Hraise.
  - intros H.
    assert (H' : get_num_samples model < nlags
                 \/ (~ in_unit alpha /\ alpha <> NaN)) by tauto.
    destruct (plot_acf_guards model nlags nburn alpha save H') as [msg ->].
    reflexivity.
Qed.

Lemma plot_acf_sim_only_raises_iff_witness :
  (raises (plot_acf sim_model 2 0 (Fin (1 # 20)) None) = true
   <-> (get_num_samples sim_model < 2 \/ ~ in_unit (Fin (1 # 20))))
  /\ (raises (plot_acf sim_model 2 0 (Fin 1) None) = true
      <-> (get_num_samples sim_model < 2 \/ ~ in_unit (Fin 1))).
Proof.
  split; apply plot_acf_sim_only_raises_iff;
    try reflexivity; discriminate.
Defined.

Lemma theta_chain_from (params : list SepiaParam) (init chain : option ndarray) :
  fold_left
    (fun chain p =>
       if (name p =? "theta")%string
       then Some (transpose (mcmc_to_array p (Some true))) else chain)
    params init = chain ->
  chain = init
  \/ exists p, In p params /\ name p = "theta"%string
               /\ chain = Some (transpose (mcmc_to_array p (Some true))).
Proof.
  revert init. induction params as [| p params IH]; simpl; intros init H.
  - left. symmetry. exact H.
  - apply IH in H. destruct H as [H | (p' & Hin & Hname & Hchain)].
    + destruct (String.eqb_spec (name p) "theta") as [Hname | _].
      * right. exists p. auto.
      * left. exact H.
    + right. exists p'. auto.
Qed.

(** C10. [nburn] has no effect on [plot_acf]: two calls that differ only
    in [nburn] give the same result and the same effects; and whenever an
    autocorrelation is computed, it is computed on the whole chain of a
    parameter named ['theta'], as [mcmc_to_array(flat=True)] returns it,
    transposed, with no sample left out. *)
Theorem plot_acf_ignores_nburn
    (model : SepiaModel) (nlags : Z) (alpha : pyfloat) (save : option string)
    (nburn1 nburn2 : Z) :
  plot_acf model nlags nburn1 alpha save = plot_acf model nlags nburn2 alpha save
  /\ forall chain l a,
       In (EAcf chain l a) (trace (plot_acf model nlags nburn1 alpha save)) ->
       exists p, In p (mcmcList model) /\ name p = "theta"%string
                 /\ chain = transpose (mcmc_to_array p (Some true)).
Proof.
  split; [reflexivity |].
  intros chain l a. unfold plot_acf.
  destruct (nlags >? get_num_samples model); [intros [] |].
  destruct (float_le alpha (Fin 0) || float_le (Fin 1) alpha); [intros [] |].
  destruct (sim_only (num model)).
  - simpl. intros [H | []]. discriminate H.
  - destruct (theta_chain (mcmcList model)) as [c |] eqn:Hc; [| intros []].
    apply theta_chain_from in Hc.
    destruct Hc as [Hc | (p & Hin & Hname & Hc)]; [discriminate Hc |].
    inversion Hc; subst c.
    intros H. exists p. repeat split; try assumption.
    destruct save; simpl in H.
    + destruct H as [H | [H | []]]; [| discriminate H].
      inversion H. reflexivity.
    + destruct H as [H | []]. inversion H. reflexivity.
Qed.

Lemma plot_acf_ignores_nburn_witness :
  plot_acf calib_model 2 0 (Fin (1 # 20)) None
  = plot_acf calib_model 2 100 (Fin (1 # 20)) None
  /\ exists p, In p (mcmcList calib_model) /\ name p = "theta"%string
               /\ transpose theta_samples
                  = transpose (mcmc_to_array p (Some true)).
Proof.
  split.
  - apply (proj1 (plot_acf_ignores_nburn calib_model 2 (Fin (1 # 20)) None
                    0 100)).
  - apply (proj2 (plot_acf_ignores_nburn calib_model 2 (Fin (1 # 20)) None
                    0 100)
             (transpose theta_samples) 2 (Fin (1 # 20))).
    left. reflexivity.
Defined.

(** ** [param_stats] *)

Lemma stats_app_nil st : stats_app st no_stats = st.
Proof.
  destruct st. unfold stats_app. simpl. rewrite !app_nil_r. reflexivity.
Qed.

Lemma stats_app_assoc st1 st2 st3 :
  stats_app (stats_app st1 st2) st3 = stats_app st1 (stats_app st2 st3).
Proof. unfold stats_app. simpl. rewrite <- !app_assoc. reflexivity. Qed.

Lemma column_length a j : length (column a j) = shape0 a.
Proof. unfold column, shape0. apply length_map. Qed.

Lemma quantile_ok np a j q :
  level_ok q -> (0 < shape0 a)%nat ->
  quantile np (column a j) q = ret (np_quantile np (column a j) q).
Proof.
  intros [H0 H1] Ha. unfold quantile.
  apply Qle_bool_iff in H0. apply Qle_bool_iff in H1.
  rewrite H0, H1. rewrite <- (column_length a j) in Ha.
  destruct (column a j); [simpl in Ha; lia | reflexivity].
Qed.

Lemma quantile_empty np a j q :
  level_ok q -> shape0 a = 0%nat ->
  quantile np (column a j) q
  = raise (IndexError "index -1 is out of bounds for axis 0 with size 0").
Proof.
  intros [H0 H1] Ha. unfold quantile.
  apply Qle_bool_iff in H0. apply Qle_bool_iff in H1.
  rewrite H0, H1. rewrite <- (column_length a j) in Ha.
  destruct (column a j); [reflexivity | discriminate Ha].
Qed.

Lemma quantile_bad np a q :
  ~ level_ok q ->
  quantile np a q = raise (ValueError "Quantiles must be in the range [0, 1]").
Proof.
  intros H. unfold quantile.
  destruct (Qle_bool 0 q) eqn:H0; [| reflexivity].
  destruct (Qle_bool q 1) eqn:H1; [| reflexivity].
  exfalso. apply H. split; apply Qle_bool_iff; assumption.
Qed.

Lemma stats_column_ok np names q1 q2 digits i k a st j :
  level_ok q1 -> level_ok q2 -> names_cover names i a ->
  (0 < shape0 a)%nat -> (j < shape1 a)%nat ->
  stats_column np names q1 q2 digits i k a st j
  = ret (stats_app st (block_stats np names q1 q2 digits i k a [j])).
Proof.
  intros H1 H2 Hnames Ha Hj. unfold stats_column.
  rewrite (quantile_ok _ _ _ _ H1 Ha), bind_ret.
  rewrite (quantile_ok _ _ _ _ H2 Ha), bind_ret.
  assert (Hkey :
    match names with
    | Some l =>
        if (i =? 0)%nat then list_getitem l j
        else if (1 <? shape1 a)%nat
             then ret (k ++ "_" ++ str_nat (j + 1))%string else ret k
    | None =>
        if (1 <? shape1 a)%nat
        then ret (k ++ "_" ++ str_nat (j + 1))%string else ret k
    end = ret (column_label names i k (shape1 a) j)).
  { unfold column_label. destruct names as [l |].
    - destruct (Nat.eqb_spec i 0) as [Hi | Hi].
      + unfold list_getitem. specialize (Hnames Hi).
        rewrite (nth_error_nth' l ""%string) by lia. reflexivity.
      + destruct (1 <? shape1 a)%nat; reflexivity.
    - destruct (1 <? shape1 a)%nat; reflexivity. }
  rewrite Hkey, bind_ret. reflexivity.
Qed.

Lemma stats_columns_ok np names q1 q2 digits i k a :
  level_ok q1 -> level_ok q2 -> names_cover names i a ->
  (0 < shape0 a)%nat ->
  forall n s st, (s + n <= shape1 a)%nat ->
    for_each (seq s n) (stats_column np names q1 q2 digits i k a) st
    = ret (stats_app st (block_stats np names q1 q2 digits i k a (seq s n))).
Proof.
  intros H1 H2 Hnames Ha. induction n as [| n IH]; intros s st Hle; simpl.
  - rewrite stats_app_nil. reflexivity.
  - rewrite stats_column_ok by (assumption || lia).
    rewrite bind_ret, IH by lia.
    rewrite stats_app_assoc. reflexivity.
Qed.

Lemma stats_blocks_ok np d names q1 q2 digits :
  level_ok q1 -> level_ok q2 ->
  forall items i st,
    (forall k a, In (k, a) items -> dict_get d k = Some a) ->
    has_samples items ->
    match items with
    | [] => True
    | (_, a) :: _ => names_cover names i a
    end ->
    for_each (combine (seq i (length items)) (keys items))
      (stats_block np d names q1 q2 digits) st
    = ret (stats_app st (stats_from np names q1 q2 digits i items)).
Proof.
  intros H1 H2.
  induction items as [| [k a] items IH]; intros i st Hget Hfull Hfirst.
  - simpl. rewrite stats_app_nil. reflexivity.
  - simpl. unfold stats_block at 1. simpl.
    unfold getitem. rewrite (Hget k a) by (left; reflexivity).
    rewrite bind_ret.
    inversion Hfull as [| kv items' Ha Hfull' E]; subst. cbn [snd] in Ha.
    rewrite (stats_columns_ok np names q1 q2 digits i k a H1 H2 Hfirst Ha)
      by lia.
    rewrite bind_ret, IH.
    + rewrite stats_app_assoc. reflexivity.
    + intros k' a' Hin. apply Hget. right. exact Hin.
    + exact Hfull'.
    + destruct items as [| [k' a'] items']; [exact I |].
      unfold names_cover. destruct names; [| exact I]. intros Hi. discriminate Hi.
Qed.

Lemma stats_from_spec np names q1 q2 digits d :
  stats_from np names q1 q2 digits 0 d = stats_spec np names q1 q2 digits d.
Proof.
  unfold stats_spec, all_columns. generalize 0%nat as i.
  induction d as [| [k a] d IH]; intros i; [reflexivity |].
  simpl. rewrite IH. unfold stats_app, block_stats, block_columns, block_labels.
  simpl. rewrite !map_app, !map_map. reflexivity.
Qed.

(** The body of [param_stats] after the label check. *)
Lemma stats_table_ok np d names q1 q2 digits :
  wf_dict d -> has_samples d -> level_ok q1 -> level_ok q2 ->
  match d with
  | [] => True
  | (_, a) :: _ => names_cover names 0 a
  end ->
  stats_table np d names q1 q2 digits
  = ret (Some (stats_frame np q1 q2 (stats_spec np names q1 q2 digits d))).
Proof.
  intros Hwf Hfull H1 H2 Hfirst. unfold stats_table, enumerate.
  unfold keys at 1. rewrite length_map.
  rewrite (stats_blocks_ok np d names q1 q2 digits H1 H2 d 0 no_stats).
  - rewrite bind_ret. rewrite stats_from_spec.
    destruct (stats_spec np names q1 q2 digits d). reflexivity.
  - intros k a Hin. apply dict_get_item; assumption.
  - exact Hfull.
  - exact Hfirst.
Qed.

Lemma labels_from_length names d i :
  length (labels_from names i d) = length (all_columns d).
Proof.
  revert i. induction d as [| [k a] d IH]; intros i; [reflexivity |].
  unfold all_columns in *. simpl. rewrite !length_app, IH.
  unfold block_labels, block_columns. rewrite !length_map. reflexivity.
Qed.

Lemma length_append (s t : string) :
  String.length (s ++ t) = (String.length s + String.length t)%nat.
Proof. induction s as [| c s IH]; simpl; [reflexivity | rewrite IH; reflexivity]. Qed.

Lemma quantile_name_fresh (s k : string) :
  (String.length k < 9)%nat -> (k =? s ++ " quantile")%string = false.
Proof.
  intros Hk. apply String.eqb_neq. intros ->.
  rewrite length_append in Hk. simpl in Hk. lia.
Qed.

Lemma stats_frame_columns np q1 q2 st :
  let n1 := (str_float np q1 ++ " quantile")%string in
  let n2 := (str_float np q2 ++ " quantile")%string in
  df_columns (stats_frame np q1 q2 st)
  = if (n1 =? n2)%string
    then [("mean"%string, st_mean st); ("sd"%string, st_sd st); (n1, st_q2 st)]
    else [("mean"%string, st_mean st); ("sd"%string, st_sd st);
          (n1, st_q1 st); (n2, st_q2 st)].
Proof.
  intros n1 n2. unfold stats_frame, dict_of_items.
  cbn [df_columns fold_left dict_set fst snd].
  change ("mean" =? "sd")%string with false. cbn [dict_set].
  rewrite !(quantile_name_fresh (str_float np q1)) by (simpl; lia).
  cbn [dict_set].
  rewrite !(quantile_name_fresh (str_float np q2)) by (simpl; lia).
  fold n1 n2. destruct (n1 =? n2)%string; reflexivity.
Qed.

Lemma append_inj_l (t s s' : string) : (s ++ t = s' ++ t)%string -> s = s'.
Proof.
  revert s'. induction s as [| c s IH]; intros [| c' s'] H; simpl in H.
  - reflexivity.
  - apply (f_equal String.length) in H. simpl in H.
    rewrite length_append in H. lia.
  - apply (f_equal String.length) in H. simpl in H.
    rewrite length_append in H. lia.
  - inversion H as [[Hc Hs]]. f_equal. apply IH. exact Hs.
Qed.

Lemma stats_frame_lookup np q1 q2 st :
  let df := stats_frame np q1 q2 st in
  dict_get (df_columns df) "mean" = Some (st_mean st)
  /\ dict_get (df_columns df) "sd" = Some (st_sd st)
  /\ dict_get (df_columns df) (str_float np q2 ++ " quantile") = Some (st_q2 st)
  /\ (str_float np q1 <> str_float np q2 ->
      dict_get (df_columns df) (str_float np q1 ++ " quantile")
      = Some (st_q1 st)).
Proof.
  intros df. unfold df. rewrite stats_frame_columns.
  set (n1 := (str_float np q1 ++ " quantile")%string).
  set (n2 := (str_float np q2 ++ " quantile")%string).
  assert (Hm1 : ("mean" =? n1)%string = false)
    by (apply quantile_name_fresh; simpl; lia).
  assert (Hm2 : ("mean" =? n2)%string = false)
    by (apply quantile_name_fresh; simpl; lia).
  assert (Hs1 : ("sd" =? n1)%string = false)
    by (apply quantile_name_fresh; simpl; lia).
  assert (Hs2 : ("sd" =? n2)%string = false)
    by (apply quantile_name_fresh; simpl; lia).
  assert (Hms : ("mean" =? "sd")%string = false) by reflexivity.
  destruct (String.eqb_spec n1 n2) as [E | E]; cbn [dict_get];
    rewrite ?Hms, ?Hm1, ?Hm2, ?Hs1, ?Hs2, ?String.eqb_refl.
  - repeat split.
    + rewrite E, String.eqb_refl. reflexivity.
    + intros Hne. exfalso. apply Hne.
      apply (append_inj_l " quantile"). exact E.
  - repeat split.
    destruct (String.eqb_spec n1 n2); [contradiction | reflexivity].
Qed.

Lemma names_fit_passes names d :
  names_fit names d ->
  forall np q1 q2 digits,
    param_stats np d names q1 q2 digits = stats_table np d names q1 q2 digits
    /\ match d with
       | [] => True
       | (_, a) :: _ => names_cover names 0 a
       end.
Proof.
  intros Hfit np q1 q2 digits. unfold param_stats.
  destruct names as [l |].
  - destruct Hfit as (theta & rest & -> & Hlen). split.
    + unfold contains, getitem. cbn [dict_get].
      rewrite String.eqb_refl. cbn [negb]. rewrite bind_ret.
      rewrite Hlen, Nat.eqb_refl. reflexivity.
    + simpl. intros _. lia.
  - split.
    + unfold contains, getitem.
      destruct (dict_get d "theta"); [rewrite bind_ret |]; reflexivity.
    + destruct d as [| [k a] d']; exact I.
Qed.

(** C7 fails as stated: with one name for two theta columns no table is
    returned, and a level outside [0, 1] raises. *)
Lemma param_stats_without_table :
  param_stats Ref.numerics calib_samples (Some ["a"%string]) (1 # 20) (19 # 20) 4
  = ([EPrint "theta_names should have 2 entries"], Ok None)
  /\ param_stats Ref.numerics calib_samples None (1 # 20) (3 # 2) 4
     = ([], Raise (ValueError "Quantiles must be in the range [0, 1]")).
Proof. split; vm_compute; reflexivity. Qed.

(** C7, amended. When [theta_names] is [None], or theta is the first block
    and [theta_names] has one name per theta column, every block holds at
    least one sample, and [q1] and [q2] are in [0, 1], [param_stats]
    returns a table with one row per parameter column of every block of
    the (well-formed) dictionary; its columns
    ['mean'], ['sd'] and the two quantile columns hold, for each parameter
    column in order, the mean, the standard deviation, the [q1]-quantile and
    the [q2]-quantile of the samples, each rounded to [digits] digits (when
    both levels print alike there is one quantile column, the one of [q2]). *)
Theorem param_stats_table
    (np : Numerics) (d : dict ndarray) (theta_names : option (list string))
    (q1 q2 : Q) (digits : Z) :
  wf_dict d -> names_fit theta_names d -> has_samples d ->
  level_ok q1 -> level_ok q2 ->
  exists df,
    param_stats np d theta_names q1 q2 digits = ([], Ok (Some df))
    /\ length (df_index df) = length (all_columns d)
    /\ dict_get (df_columns df) "mean"
       = Some (map (fun c => np_round np (np_mean np c) digits) (all_columns d))
    /\ dict_get (df_columns df) "sd"
       = Some (map (fun c => np_round np (np_std np c) digits) (all_columns d))
    /\ dict_get (df_columns df) (str_float np q2 ++ " quantile")
       = Some (map (fun c => np_round np (np_quantile np c q2) digits)
                   (all_columns d))
    /\ (str_float np q1 <> str_float np q2 ->
        dict_get (df_columns df) (str_float np q1 ++ " quantile")
        = Some (map (fun c => np_round np (np_quantile np c q1) digits)
                    (all_columns d))).
Proof.
  intros Hwf Hfit Hfull H1 H2.
  destruct (names_fit_passes _ _ Hfit np q1 q2 digits) as [-> Hcover].
  rewrite stats_table_ok by assumption.
  eexists. split; [reflexivity |].
  split; [apply labels_from_length |].
  apply (stats_frame_lookup np q1 q2 (stats_spec np theta_names q1 q2 digits d)).
Qed.

Lemma calib_samples_wf : wf_dict calib_samples.
Proof.
  unfold wf_dict, calib_samples, keys. simpl.
  repeat constructor; simpl; intuition discriminate.
Defined.

Lemma calib_samples_full : has_samples calib_samples.
Proof. repeat constructor. Defined.

Lemma param_stats_table_witness :
  exists df,
    param_stats Ref.numerics calib_samples (Some ["a"; "b"]%string)
      (1 # 20) (19 # 20) 4 = ([], Ok (Some df))
    /\ length (df_index df) = length (all_columns calib_samples)
    /\ dict_get (df_columns df) "mean"
       = Some (map (fun c => Ref.round (Ref.mean c) 4)
                   (all_columns calib_samples))
    /\ dict_get (df_columns df) "sd"
       = Some (map (fun c => Ref.round (Ref.std c) 4)
                   (all_columns calib_samples))
    /\ dict_get (df_columns df) "0.95 quantile"
       = Some (map (fun c => Ref.round (Ref.quantile c (19 # 20)) 4)
                   (all_columns calib_samples))
    /\ ("0.05"%string <> "0.95"%string ->
        dict_get (df_columns df) "0.05 quantile"
        = Some (map (fun c => Ref.round (Ref.quantile c (1 # 20)) 4)
                    (all_columns calib_samples))).
Proof.
  apply (param_stats_table Ref.numerics calib_samples
           (Some ["a"; "b"]%string) (1 # 20) (19 # 20) 4).
  - exact calib_samples_wf.
  - exists theta_samples, (tl calib_samples). split; reflexivity.
  - exact calib_samples_full.
  - split; discriminate.
  - split; discriminate.
Defined.

Lemma in_enumerate {A} (l : list A) (x : A) (s : nat) :
  In x l -> exists i, In (i, x) (combine (seq s (length l)) l).
Proof.
  revert s. induction l as [| y l IH]; intros s; simpl; [intros [] |].
  intros [-> | Hin].
  - exists s. left. reflexivity.
  - destruct (IH (S s) Hin) as [i Hi]. exists i. right. exact Hi.
Qed.

Lemma dict_get_keys {V} (d : dict V) k v :
  dict_get d k = Some v -> In k (keys d).
Proof.
  induction d as [| [k' v'] d IH]; simpl; [discriminate |].
  destruct (String.eqb_spec k' k) as [-> | _]; [left; reflexivity |].
  intros H. right. apply IH. exact H.
Qed.

Lemma dict_get_in {V} (d : dict V) k v :
  dict_get d k = Some v -> In (k, v) d.
Proof.
  induction d as [| [k' v'] d IH]; simpl; [discriminate |].
  destruct (String.eqb_spec k' k) as [-> | _].
  - intros H. inversion H. left. reflexivity.
  - intros H. right. apply IH. exact H.
Qed.

Lemma level_ok_dec (q : Q) : {level_ok q} + {~ level_ok q}.
Proof.
  unfold level_ok.
  destruct (Qle_bool 0 q) eqn:H0; [destruct (Qle_bool q 1) eqn:H1 |].
  - left. split; apply Qle_bool_iff; assumption.
  - right. intros [_ H]. apply Qle_bool_iff in H. congruence.
  - right. intros [H _]. apply Qle_bool_iff in H. congruence.
Qed.

Lemma stats_column_bad np names q1 q2 digits i k a st j :
  ~ (level_ok q1 /\ level_ok q2) -> (0 < shape0 a)%nat ->
  stats_column np names q1 q2 digits i k a st j
  = raise (ValueError "Quantiles must be in the range [0, 1]").
Proof.
  intros Hbad Ha. unfold stats_column.
  destruct (level_ok_dec q1) as [H1 | H1].
  - rewrite (quantile_ok _ _ _ _ H1 Ha), bind_ret.
    rewrite quantile_bad by tauto. reflexivity.
  - rewrite (quantile_bad _ _ _ H1). reflexivity.
Qed.

(** The loop of [param_stats] stops at the first parameter column when a
    level is out of range. *)
Lemma stats_blocks_bad np d names q1 q2 digits :
  ~ (level_ok q1 /\ level_ok q2) ->
  has_samples d ->
  forall l st,
    (forall ik, In ik l -> exists a, dict_get d (snd ik) = Some a) ->
    (exists ik a,
        In ik l /\ dict_get d (snd ik) = Some a /\ (0 < shape1 a)%nat) ->
    for_each l (stats_block np d names q1 q2 digits) st
    = raise (ValueError "Quantiles must be in the range [0, 1]").
Proof.
  intros Hbad Hfull. induction l as [| ik l IH]; intros st Hget Hsome.
  - destruct Hsome as (ik & a & [] & _).
  - destruct (Hget ik (or_introl eq_refl)) as [a Ha].
    simpl. unfold stats_block at 1, getitem. rewrite Ha, bind_ret.
    destruct (shape1 a) as [| n] eqn:Hw.
    + cbn [seq for_each]. rewrite !bind_ret. apply IH.
      * intros ik' Hin. apply Hget. right. exact Hin.
      * destruct Hsome as (ik' & a' & [-> | Hin] & Ha' & Hpos).
        -- rewrite Ha in Ha'. inversion Ha'; subst a'. lia.
        -- exists ik', a'. auto.
    + cbn [seq for_each]. rewrite stats_column_bad; [reflexivity | exact Hbad |].
      apply dict_get_in in Ha.
      apply (proj1 (Forall_forall _ d) Hfull _ Ha).
Qed.

Lemma names_pass_table np d names q1 q2 digits :
  names_pass names d ->
  param_stats np d names q1 q2 digits = stats_table np d names q1 q2 digits.
Proof.
  unfold names_pass, param_stats, contains, getitem.
  destruct (dict_get d "theta") as [theta |]; [| reflexivity].
  rewrite bind_ret. destruct names as [l |]; [| reflexivity].
  intros ->. rewrite Nat.eqb_refl. reflexivity.
Qed.

(** C9 fails as stated: a level of 2 is not detected when there is no
    parameter column, nor when the label check stops the call. *)
Lemma param_stats_level_unnoticed :
  param_stats Ref.numerics [] None 2 (19 # 20) 4
  = ([], Ok (Some (mk_df [] [ ("mean", []); ("sd", []); ("2.0 quantile", []);
                              ("0.95 quantile", []) ]%string)))
  /\ param_stats Ref.numerics calib_samples (Some ["a"%string]) 2 (19 # 20) 4
     = ([EPrint "theta_names should have 2 entries"], Ok None).
Proof. split; vm_compute; reflexivity. Qed.

(** C9, amended. [param_stats] has no range check of its own: a level
    [q1] or [q2] outside [0, 1] is refused by [np.quantile] when the
    quantile of the first parameter column is computed.  So, whenever the
    label check lets the call through, every block holds at least one
    sample and some block has a column, the call raises the [ValueError]
    of [np.quantile] to the caller, with no table and nothing printed; the
    level is never replaced by a valid one. *)
Theorem param_stats_bad_level
    (np : Numerics) (d : dict ndarray) (theta_names : option (list string))
    (q1 q2 : Q) (digits : Z) :
  names_pass theta_names d ->
  has_samples d ->
  (exists k a, dict_get d k = Some a /\ (0 < shape1 a)%nat) ->
  ~ (level_ok q1 /\ level_ok q2) ->
  param_stats np d theta_names q1 q2 digits
  = ([], Raise (ValueError "Quantiles must be in the range [0, 1]")).
Proof.
  intros Hpass Hfull (k & a & Ha & Hpos) Hbad.
  rewrite names_pass_table by exact Hpass.
  unfold stats_table, enumerate.
  rewrite (stats_blocks_bad np d theta_names q1 q2 digits Hbad Hfull).
  - reflexivity.
  - intros ik Hin. apply dict_get_in_keys.
    destruct ik as [i k']. apply in_combine_r in Hin. exact Hin.
  - destruct (in_enumerate (keys d) k 0 (dict_get_keys d k a Ha)) as [i Hi].
    exists (i, k), a. auto.
Qed.

Lemma param_stats_bad_level_witness :
  param_stats Ref.numerics calib_samples None (1 # 20) (3 # 2) 4
  = ([], Raise (ValueError "Quantiles must be in the range [0, 1]")).
Proof.
  apply param_stats_bad_level.
  - exact I.
  - exact calib_samples_full.
  - exists "lamUz"%string, lamUz_samples. split; [reflexivity | simpl; lia].
  - intros [_ [_ H]]. apply H. reflexivity.
Defined.

(** ** [mcmc_trace] and [theta_pairs] *)

Ltac events_step :=
  cbv beta;
  match goal with
  | |- all_events _ (ret _) => apply all_events_ret
  | |- all_events _ (raise _) => apply all_events_raise
  | |- all_events _ (getitem _ _) => apply all_events_getitem
  | |- all_events _ (list_getitem _ _) => apply all_events_list_getitem
  | |- all_events _ (take_column _ _ _) => apply all_events_take_column
  | |- all_events _ (axs_getitem _ _) => apply all_events_axs_getitem
  | |- all_events _ (np_linspace_int _ _ _) => apply all_events_linspace
  | |- all_events _ (bind _ _) => apply all_events_bind; [| intro]
  | |- all_events _ (for_each _ _ _) => apply all_events_for_each; intros ? ?
  | |- all_events _ (for_ _ _) => apply all_events_for; intro
  | |- all_events _ (emit _) => apply all_events_emit
  | |- all_events _ (match ?x with _ => _ end) => destruct x eqn:?
  end.

(** The counting loop of lines 118-121 leaves ['theta_native'] out. *)
Lemma count_plots_from d max_print :
  forall items i acc,
    (forall k a, In (k, a) items -> dict_get d k = Some a) ->
    for_each (combine (seq i (length items)) (keys items))
      (fun total_plots (ik : nat * string) =>
         if (snd ik =? "theta_native")%string then ret total_plots
         else
           a <- getitem d (snd ik) ;;
           ret (total_plots + py_min (Z.of_nat (shape1 a)) max_print))
      acc
    = ret (acc + fold_right
                   (fun kv n => py_min (Z.of_nat (shape1 (snd kv))) max_print + n)
                   0 (plotted_blocks items)).
Proof.
  induction items as [| [k a] items IH]; intros i acc Hget.
  - simpl. rewrite Z.add_0_r. reflexivity.
  - cbn [length seq keys map combine for_each fst snd plotted_blocks filter].
    assert (Hrest : forall k' a', In (k', a') items -> dict_get d k' = Some a')
      by (intros k' a' Hin; apply Hget; right; exact Hin).
    destruct (k =? "theta_native")%string; cbn [negb].
    + rewrite bind_ret. apply IH. exact Hrest.
    + unfold getitem. rewrite (Hget k a) by (left; reflexivity).
      rewrite !bind_ret. fold (keys items).
      rewrite (IH (S i) _ Hrest). cbn [fold_right snd].
      fold (plotted_blocks items). rewrite Z.add_assoc. reflexivity.
Qed.

Lemma count_plots_spec d max_print :
  wf_dict d -> count_plots d max_print = ret (axes_wanted d false max_print).
Proof.
  intros Hwf. unfold count_plots, enumerate, axes_wanted.
  unfold keys at 1. rewrite length_map.
  rewrite (count_plots_from d max_print d 0 0); [reflexivity |].
  intros k a Hin. apply dict_get_item; assumption.
Qed.

Lemma plotted_blocks_all (d : dict ndarray) :
  dict_get d "theta_native" = None -> plotted_blocks d = d.
Proof.
  induction d as [| [k a] d IH]; [reflexivity |].
  cbn [dict_get plotted_blocks filter fst].
  destruct (k =? "theta_native")%string; [discriminate |].
  intros H. cbn [negb]. fold (plotted_blocks d). rewrite IH by exact H.
  reflexivity.
Qed.

(** Line 144: with distinct keys, one axis less than [len(samples_dict)]
    is one axis per block other than ['theta_native']. *)
Lemma n_axes_spec (d : dict ndarray) :
  wf_dict d ->
  (if contains d "theta_native"
   then Z.of_nat (length d) - 1 else Z.of_nat (length d))
  = axes_wanted d true 0.
Proof.
  unfold axes_wanted, contains, wf_dict.
  induction d as [| [k a] d IH]; intros Hwf; [reflexivity |].
  cbn [keys map fst] in Hwf. inversion Hwf as [| k' ks Hnotin Hwf' E]; subst.
  cbn [dict_get plotted_blocks filter fst].
  destruct (String.eqb_spec k "theta_native") as [-> | Hk]; cbn [negb].
  - assert (Hnone : dict_get d "theta_native" = None).
    { destruct (dict_get d "theta_native") eqn:Hget; [| reflexivity].
      exfalso. apply Hnotin. apply (dict_get_keys d _ _ Hget). }
    fold (plotted_blocks d). rewrite plotted_blocks_all by exact Hnone.
    cbn [length]. lia.
  - fold (plotted_blocks d). specialize (IH Hwf').
    fold (keys d) in IH. cbn [length].
    destruct (dict_get d "theta_native"); lia.
Qed.

(** The figure of [mcmc_trace] has the axes of the plotted blocks only. *)
Lemma mcmc_trace_axes samples_dict theta_names start end_ n_to_plot by_group
    max_print save :
  wf_dict samples_dict ->
  all_events (axes_are (axes_wanted samples_dict by_group max_print))
    (mcmc_trace samples_dict theta_names start end_ n_to_plot by_group
       max_print save).
Proof.
  intros Hwf. unfold mcmc_trace.
  rewrite (n_axes_spec samples_dict Hwf), (count_plots_spec _ _ Hwf).
  apply all_events_bind;
    [unfold trace_indices; repeat events_step; exact I | intros plot_idx].
  destruct by_group; cbn [negb]; rewrite ?bind_ret;
    unfold trace_block, trace_group, group_label, savefig, plt_subplots,
      axs_set_ylabel;
    repeat events_step; simpl; try exact I; reflexivity.
Qed.

Lemma mcmc_trace_skips (k : string) samples_dict theta_names start end_
    n_to_plot by_group max_print save :
  k = "theta_native"%string ->
  all_events (not_plotted k)
    (mcmc_trace samples_dict theta_names start end_ n_to_plot by_group
       max_print save).
Proof.
  intros ->.
  unfold mcmc_trace, trace_indices, count_plots, trace_block, trace_group,
    group_label, savefig, plt_subplots, axs_set_ylabel.
  repeat events_step;
    simpl; try exact I;
    apply String.eqb_neq; assumption.
Qed.

Lemma theta_pairs_plain d1 d2 design_names lims theta_ref save :
  dict_get d1 "theta" = dict_get d2 "theta" ->
  theta_pairs d1 design_names false lims theta_ref save
  = theta_pairs d2 design_names false lims theta_ref save.
Proof.
  intros H. unfold theta_pairs, contains, getitem. simpl. rewrite H.
  reflexivity.
Qed.

Lemma theta_pairs_native d design_names lims theta_ref save :
  contains d "theta" = true ->
  theta_pairs d design_names true lims theta_ref save
  = match dict_get d "theta_native" with
    | Some a => theta_pairs_plot a design_names true lims theta_ref save
    | None => ([], Raise (KeyError "theta_native"))
    end.
Proof.
  intros H. unfold theta_pairs, getitem. rewrite H. simpl.
  destruct (dict_get d "theta_native"); [rewrite bind_ret |]; reflexivity.
Qed.

Lemma labels_from_in k a j d i :
  In (k, a) d -> (j < shape1 a)%nat ->
  In (column_label None 0 k (shape1 a) j) (labels_from None i d).
Proof.
  intros Hin Hj. revert i. induction d as [| [k' a'] d IH]; intros i;
    [destruct Hin |].
  simpl. apply in_or_app. destruct Hin as [Heq | Hin].
  - left. inversion Heq; subst. unfold block_labels.
    apply in_map_iff. exists j. split; [reflexivity | apply in_seq; lia].
  - right. apply IH. exact Hin.
Qed.

(** C2 fails as stated: the table of [param_stats] has the rows of
    [theta_native]. *)
Lemma param_stats_keeps_theta_native :
  exists df,
    param_stats Ref.numerics calib_samples None (1 # 20) (19 # 20) 4
    = ([], Ok (Some df))
    /\ df_index df
       = ["theta_1"; "theta_2"; "lamUz"; "theta_native_1"; "theta_native_2"]%string.
Proof. eexists. split; vm_compute; reflexivity. Qed.

(** C2, amended. [mcmc_trace] leaves the key ['theta_native'] out: no line
    is drawn from that block, and (the keys being distinct) the figure is
    made with the axes of the other blocks only, one per block, or one per
    trace when the traces are not grouped.  [param_stats] does not skip the
    key: called without names, with levels in [0, 1] and at least one sample
    in every block, its table has one row per column of every block, those
    of [theta_native] included.
    [theta_pairs], given a dictionary with the key ['theta'], plots
    [samples_dict['theta_native']] when [native] is [True] (a [KeyError] when
    the key is missing) and [samples_dict['theta']] when [native] is [False],
    in which case the [theta_native] entry is not read. *)
Theorem theta_native_consumers :
  (forall samples_dict theta_names start end_ n_to_plot by_group max_print save,
      all_events (not_plotted "theta_native")
        (mcmc_trace samples_dict theta_names start end_ n_to_plot by_group
           max_print save))
  /\ (forall samples_dict theta_names start end_ n_to_plot by_group max_print
             save,
         wf_dict samples_dict ->
         all_events (axes_are (axes_wanted samples_dict by_group max_print))
           (mcmc_trace samples_dict theta_names start end_ n_to_plot by_group
              max_print save))
  /\ (forall np d q1 q2 digits a,
         wf_dict d -> has_samples d -> level_ok q1 -> level_ok q2 ->
         dict_get d "theta_native" = Some a ->
         exists df,
           param_stats np d None q1 q2 digits = ([], Ok (Some df))
           /\ length (df_index df) = length (all_columns d)
           /\ forall j, (j < shape1 a)%nat ->
                In (column_label None 0 "theta_native" (shape1 a) j)
                   (df_index df))
  /\ (forall d design_names lims theta_ref save,
         contains d "theta" = true ->
         theta_pairs d design_names true lims theta_ref save
         = match dict_get d "theta_native" with
           | Some a => theta_pairs_plot a design_names true lims theta_ref save
           | None => ([], Raise (KeyError "theta_native"))
           end)
  /\ (forall d1 d2 design_names lims theta_ref save,
         dict_get d1 "theta" = dict_get d2 "theta" ->
         theta_pairs d1 design_names false lims theta_ref save
         = theta_pairs d2 design_names false lims theta_ref save).
Proof.
  split; [| split; [| split; [| split]]].
  - intros. apply mcmc_trace_skips. reflexivity.
  - intros. apply mcmc_trace_axes. assumption.
  - intros np d q1 q2 digits a Hwf Hfull H1 H2 Ha.
    destruct (names_fit_passes None d I np q1 q2 digits) as [-> Hcover].
    rewrite stats_table_ok by assumption.
    eexists. split; [reflexivity |].
    split; [apply labels_from_length |].
    intros j Hj. unfold stats_frame, stats_spec. cbn [df_index st_keys].
    apply labels_from_in; [| exact Hj].
    apply dict_get_in. exact Ha.
  - intros. apply theta_pairs_native. assumption.
  - intros. apply theta_pairs_plain. assumption.
Qed.

Lemma theta_native_consumers_witness :
  all_events (not_plotted "theta_native")
    (mcmc_trace calib_samples None 0 None 500 false 10 None)
  /\ all_events (axes_are 3)
       (mcmc_trace calib_samples None 0 None 500 false 10 None)
  /\ all_events (axes_are 2)
       (mcmc_trace calib_samples None 0 None 500 true 10 None)
  /\ (exists df,
         param_stats Ref.numerics calib_samples None (1 # 20) (19 # 20) 4
         = ([], Ok (Some df))
         /\ length (df_index df) = length (all_columns calib_samples)
         /\ forall j, (j < 2)%nat ->
              In (column_label None 0 "theta_native" 2 j) (df_index df))
  /\ theta_pairs calib_samples None true None None None
     = theta_pairs_plot theta_native_samples None true None None None
  /\ theta_pairs calib_samples None false None None None
     = theta_pairs (firstn 2 calib_samples) None false None None None.
Proof.
  split; [| split; [| split; [| split; [| split]]]].
  - apply (proj1 theta_native_consumers).
  - apply (proj1 (proj2 theta_native_consumers)
             calib_samples None 0 None 500 false 10 None).
    exact calib_samples_wf.
  - apply (proj1 (proj2 theta_native_consumers)
             calib_samples None 0 None 500 true 10 None).
    exact calib_samples_wf.
  - apply (proj1 (proj2 (proj2 theta_native_consumers))
             Ref.numerics calib_samples (1 # 20) (19 # 20) 4
             theta_native_samples).
    + exact calib_samples_wf.
    + exact calib_samples_full.
    + split; discriminate.
    + split; discriminate.
    + reflexivity.
  - apply (proj1 (proj2 (proj2 (proj2 theta_native_consumers)))
             calib_samples None None None None).
    reflexivity.
  - apply (proj2 (proj2 (proj2 (proj2 theta_native_consumers)))).
    reflexivity.
Defined.

(** C6. A label list whose length differs from the width of the theta
    block should be rejected before any plotting; [mcmc_trace] does not do
    so.  On a theta block of two columns: with one name the list is not
    refused, a line is plotted and the second label raises [IndexError];
    with three names the call goes through and the third name is dropped.
    ([theta_pairs] and [param_stats] refuse both lists before doing
    anything: [theta_pairs_refuses_names] and [param_stats_refuses_names]
    below.) *)
Theorem mcmc_trace_takes_any_names :
  mcmc_trace calib_samples (Some ["a"]%string) 0 None 500 true 10 None
  = ([ESubplots 2;
      ELineplot "theta" 0 [0; 1] [1 # 10; 3 # 10]%Q 0 (Some "a"%string)],
     Raise (IndexError "list index out of range"))
  /\ mcmc_trace calib_samples (Some ["a"; "b"; "c"]%string) 0 None 500 true 10
       None
     = ([ESubplots 2;
         ELineplot "theta" 0 [0; 1] [1 # 10; 3 # 10]%Q 0 (Some "a"%string);
         ELineplot "theta" 1 [0; 1] [1 # 2; 1 # 4]%Q 0 (Some "b"%string);
         ESetYLabel 0 "theta"; ELegend 0 1;
         ELineplot "lamUz" 0 [0; 1] [1; 2]%Q 1 None;
         ESetYLabel 1 "lamUz"],
        Ok (SubplotsFig 2)).
Proof. split; vm_compute; reflexivity. Qed.

(** X2. [theta_pairs] refuses a list of design names whose length differs from
    the width of the array it is about to plot, before any plotting: it
    raises [ValueError] and its trace is empty. *)
Lemma theta_pairs_refuses_names (d : dict ndarray) (names : list string)
    (native : bool) lims theta_ref save theta :
  contains d "theta" = true ->
  dict_get d (if native then "theta_native" else "theta")%string = Some theta ->
  length names <> shape1 theta ->
  theta_pairs d (Some names) native lims theta_ref save
  = ([], Raise (ValueError "Design names wrong length")).
Proof.
  intros Hin Hget Hlen. unfold theta_pairs, getitem. rewrite Hin. simpl.
  destruct native; simpl; rewrite Hget, bind_ret; unfold theta_pairs_plot;
    (destruct (Nat.eqb_spec (length names) (shape1 theta)) as [E | _];
     [contradiction | reflexivity]).
Qed.

Lemma theta_pairs_refuses_names_witness :
  theta_pairs calib_samples (Some ["a"%string]) false None None None
  = ([], Raise (ValueError "Design names wrong length")).
Proof.
  apply (theta_pairs_refuses_names calib_samples ["a"%string] false None None
           None theta_samples).
  - reflexivity.
  - reflexivity.
  - simpl. discriminate.
Defined.

(** X3. [param_stats] refuses a list of theta names whose length differs from
    the width of the theta block, before any statistic is computed: it
    prints a message and returns [None]. *)
Lemma param_stats_refuses_names np d names q1 q2 digits theta :
  dict_get d "theta" = Some theta ->
  length names <> shape1 theta ->
  param_stats np d (Some names) q1 q2 digits
  = ([EPrint (names_message (shape1 theta))], Ok None).
Proof.
  intros Hget Hlen. unfold param_stats, contains, getitem. rewrite Hget.
  rewrite bind_ret.
  destruct (Nat.eqb_spec (length names) (shape1 theta)) as [E | _];
    [contradiction | reflexivity].
Qed.

Lemma param_stats_refuses_names_witness :
  param_stats Ref.numerics calib_samples (Some ["a"%string]) (1 # 20) (19 # 20) 4
  = ([EPrint (names_message 2)], Ok None).
Proof.
  apply (param_stats_refuses_names Ref.numerics calib_samples ["a"%string]
           (1 # 20) (19 # 20) 4 theta_samples).
  - reflexivity.
  - simpl. discriminate.
Defined.

(** ** [rho_box_plots] *)

Lemma for_emits {A} (l : list A) (body : A -> Py unit) (ev : A -> list event) :
  (forall x, In x l -> body x = (ev x, Ok tt)) ->
  for_ l body = (flat_map ev l, Ok tt).
Proof.
  unfold for_. induction l as [| x l IH]; intros H; simpl; [reflexivity |].
  rewrite H by (left; reflexivity). unfold bind at 1.
  rewrite IH; [reflexivity |]. intros y Hy. apply H. right. exact Hy.
Qed.

Lemma firstn_map_nth {A B} (f : A -> B) (d : A) (l : list A) :
  forall n, (n <= length l)%nat ->
    firstn n (map f l) = map (fun c => f (nth c l d)) (seq 0 n).
Proof.
  induction l as [| x l IH]; intros [| n] Hn; simpl in *; try reflexivity.
  - lia.
  - rewrite IH by lia. rewrite <- seq_shift, map_map. reflexivity.
Qed.









(** ** The designs of the Kronecker test *)

(** On the data of the script: the joint matrix [x_sim] is the design that its
    factor list [x_sim_kron] stands for: the Cartesian product of the 3
    rows of [x1] and the 4 rows of [x2], the first factor varying slowest,
    with 3 * 4 rows; likewise [x_sim_cal] beside [t_sim_cal] is the design
    of the factor list [xt_sim_sep]. *)
Theorem kron_test_designs_agree :
  KronTest.x_sim = KronTest.joint_design KronTest.x_sim_kron
  /\ length KronTest.x_sim = (length KronTest.x1 * length KronTest.x2)%nat
  /\ KronTest.hstack KronTest.x_sim_cal KronTest.t_sim_cal
     = KronTest.joint_design KronTest.xt_sim_sep.
Proof. repeat split; vm_compute; reflexivity. Qed.

(** * Further properties *)

(** ** The monad, continued *)

Lemma raises_bind_left {A B} (m : Py A) (f : A -> Py B) :
  raises m = true -> raises (bind m f) = true.
Proof.
  unfold raises, outcome, bind. destruct m as [t [a | e]]; simpl;
    [discriminate | reflexivity].
Qed.

Lemma raises_bind_right {A B} (m : Py A) (f : A -> Py B) :
  (forall a, raises (f a) = true) -> raises (bind m f) = true.
Proof.
  unfold raises, outcome, bind. intros H. destruct m as [t [a | e]]; simpl;
    [| reflexivity].
  specialize (H a). destruct (f a) as [t' r]. exact H.
Qed.

(** A loop raises as soon as one of its passes does, whatever the state it
    is reached in. *)
Lemma raises_for_each {A S} (l : list A) (body : S -> A -> Py S) (x : A) :
  In x l -> (forall s, raises (body s x) = true) ->
  forall s, raises (for_each l body s) = true.
Proof.
  intros Hin Hx. induction l as [| y l IH]; [destruct Hin |].
  intros s. simpl. destruct Hin as [-> | Hin].
  - apply raises_bind_left. apply Hx.
  - apply raises_bind_right. apply IH. exact Hin.
Qed.

(** ** [plot_acf] on a calibration model *)

Lemma theta_chain_last (params : list SepiaParam) :
  theta_chain params
  = option_map (fun p => transpose (mcmc_to_array p (Some true)))
               (last_theta params).
Proof.
  unfold theta_chain, last_theta.
  induction params as [| p params IH] using rev_ind; [reflexivity |].
  rewrite fold_left_app, rev_app_distr. simpl.
  destruct (name p =? "theta")%string; [reflexivity | exact IH].
Qed.

(** X4. On a model with observations, [plot_acf] called with valid
    arguments computes the autocorrelation of the chain of the last
    parameter named ['theta'] (transposed, [flat=True]) and returns what
    [model.acf] returns; it saves the figure exactly when [save] is given,
    after the computation.  Without a parameter named ['theta'] the variable
    [chain] is never bound and the call raises [UnboundLocalError] before
    anything is computed. *)
Theorem plot_acf_on_calibration_model
    (model : SepiaModel) (nlags nburn : Z) (alpha : pyfloat)
    (save : option string) :
  nlags <= get_num_samples model -> in_unit alpha ->
  sim_only (num model) = false ->
  plot_acf model nlags nburn alpha save
  = match last_theta (mcmcList model) with
    | None => ([], Raise (UnboundLocalError "chain"))
    | Some p =>
        let chain := transpose (mcmc_to_array p (Some true)) in
        (EAcf chain nlags alpha
           :: match save with
              | Some file => [ESavefig file]
              | None => []
              end,
         Ok (Some (acf model chain nlags true alpha)))
    end.
Proof.
  intros Hlags Halpha Hsim.
  rewrite plot_acf_checked by (try assumption; left; assumption).
  rewrite Hsim, theta_chain_last.
  destruct (last_theta (mcmcList model)) as [p |]; simpl; [| reflexivity].
  destruct save; reflexivity.
Qed.

Lemma plot_acf_on_calibration_model_witness :
  plot_acf calib_model 2 0 (Fin (1 # 20)) (Some "acf.png"%string)
  = ([EAcf (transpose theta_samples) 2 (Fin (1 # 20)); ESavefig "acf.png"],
     Ok (Some no_acf_result)).
Proof.
  apply (plot_acf_on_calibration_model calib_model 2 0 (Fin (1 # 20))
           (Some "acf.png"%string)).
  - simpl. lia.
  - split; reflexivity.
  - reflexivity.
Defined.

(** ** [mcmc_trace]: errors *)

Lemma trace_block_single_theta samples_dict names plot_idx max_print axs a :
  dict_get samples_dict "theta" = Some a ->
  py_min (Z.of_nat (shape1 a)) max_print <= 1 ->
  forall axs_idx i,
    raises (trace_block samples_dict (Some names) plot_idx max_print axs
              axs_idx (i, "theta"%string)) = true.
Proof.
  intros Ha Hmin axs_idx i. unfold trace_block, getitem. cbn [snd].
  change ("theta" =? "theta_native")%string with false. cbv iota.
  rewrite Ha, bind_ret.
  replace (py_min (Z.of_nat (shape1 a)) max_print >? 1) with false
    by (symmetry; rewrite Z.gtb_ltb; apply Z.ltb_ge; exact Hmin).
  apply raises_bind_right. intros y.
  unfold axs_getitem, axs_set_ylabel.
  destruct (axs =? 1); [reflexivity |].
  destruct (Z.of_nat axs_idx <? axs); reflexivity.
Qed.

(** X5. With [by_group=False] and a list of theta names, [mcmc_trace]
    never returns a figure when the theta block shows a single trace (one
    column, or [max_print <= 1]): the label is set with [axs.set_ylabel]
    where every other branch uses [axs[axs_idx].set_ylabel], and [axs] cannot
    both be indexed (line 136) and have that method (line 137). *)
Theorem mcmc_trace_single_theta_label
    (samples_dict : dict ndarray) (names : list string) (start : Z)
    (end_ : option Z) (n_to_plot max_print : Z) (save : option string)
    (a : ndarray) :
  dict_get samples_dict "theta" = Some a ->
  py_min (Z.of_nat (shape1 a)) max_print <= 1 ->
  raises (mcmc_trace samples_dict (Some names) start end_ n_to_plot false
            max_print save) = true.
Proof.
  intros Ha Hmin. unfold mcmc_trace. cbn [negb].
  apply raises_bind_right. intros plot_idx.
  apply raises_bind_right. intros total_plots.
  apply raises_bind_right. intros axs.
  apply raises_bind_left.
  destruct (in_enumerate (keys samples_dict) "theta"%string 0
              (dict_get_keys _ _ _ Ha)) as [i Hi].
  apply (raises_for_each _ _ (i, "theta"%string) Hi).
  intros axs_idx. apply trace_block_single_theta with (a := a); assumption.
Qed.

Lemma mcmc_trace_single_theta_label_witness :
  raises (mcmc_trace [("theta", lamUz_samples); ("lamUz", lamUz_samples)]%string
            (Some ["a"%string]) 0 None 500 false 10 None) = true.
Proof.
  apply (mcmc_trace_single_theta_label _ _ _ _ _ _ _ lamUz_samples).
  - reflexivity.
  - discriminate.
Defined.

Lemma trace_indices_start samples_dict start end_ n_to_plot lamUz :
  dict_get samples_dict "lamUz" = Some lamUz ->
  start < 0 ->
  trace_indices samples_dict start end_ n_to_plot
  = ([], Raise (TypeError "invalid start index")).
Proof.
  intros Hl Hs. unfold trace_indices, getitem. rewrite Hl, bind_ret.
  replace (start <? 0) with true by (symmetry; apply Z.ltb_lt; exact Hs).
  reflexivity.
Qed.

Lemma trace_indices_end samples_dict start end_ n_to_plot lamUz :
  dict_get samples_dict "lamUz" = Some lamUz ->
  0 <= start ->
  end_index end_ (Z.of_nat (shape0 lamUz)) < start
  \/ Z.of_nat (shape0 lamUz) < end_index end_ (Z.of_nat (shape0 lamUz)) ->
  trace_indices samples_dict start end_ n_to_plot
  = ([], Raise (TypeError "invalid end index")).
Proof.
  intros Hl Hs He. unfold trace_indices, getitem. rewrite Hl, bind_ret.
  replace (start <? 0) with false by (symmetry; apply Z.ltb_ge; exact Hs).
  fold (end_index end_ (Z.of_nat (shape0 lamUz))).
  set (e := end_index end_ (Z.of_nat (shape0 lamUz))) in *.
  replace ((start >? e) || (e <? 0) || (e >? Z.of_nat (shape0 lamUz)))
    with true; [reflexivity |].
  symmetry. rewrite !orb_true_iff, !Z.gtb_ltb, !Z.ltb_lt. lia.
Qed.

(** X8. [mcmc_trace] settles its sample window before any plotting call:
    without the key ['lamUz'] it raises [KeyError]; with a negative [start]
    it raises [TypeError('invalid start index')]; with an [end] (by default
    the number of samples minus one) below [start] or above the number of
    samples it raises [TypeError('invalid end index')].  In each case the
    trace is empty.  In particular an empty chain with the default
    arguments is refused. *)
Theorem mcmc_trace_checks_window
    (samples_dict : dict ndarray) (theta_names : option (list string))
    (start : Z) (end_ : option Z) (n_to_plot : Z) (by_group : bool)
    (max_print : Z) (save : option string) :
  (dict_get samples_dict "lamUz" = None ->
   mcmc_trace samples_dict theta_names start end_ n_to_plot by_group
     max_print save = ([], Raise (KeyError "lamUz")))
  /\ (forall lamUz,
         dict_get samples_dict "lamUz" = Some lamUz ->
         let n := Z.of_nat (shape0 lamUz) in
         (start < 0 ->
          mcmc_trace samples_dict theta_names start end_ n_to_plot by_group
            max_print save = ([], Raise (TypeError "invalid start index")))
         /\ (0 <= start -> end_index end_ n < start \/ n < end_index end_ n ->
             mcmc_trace samples_dict theta_names start end_ n_to_plot by_group
               max_print save = ([], Raise (TypeError "invalid end index")))).
Proof.
  split.
  - intros Hl. unfold mcmc_trace, trace_indices, getitem. rewrite Hl.
    reflexivity.
  - intros lamUz Hl n. split.
    + intros Hs. unfold mcmc_trace.
      rewrite (trace_indices_start _ _ _ _ _ Hl Hs). reflexivity.
    + intros Hs He. unfold mcmc_trace.
      rewrite (trace_indices_end _ _ _ _ _ Hl Hs He). reflexivity.
Qed.

Lemma mcmc_trace_checks_window_witness :
  mcmc_trace [("theta", theta_samples)]%string None 0 None 500 true 10 None
  = ([], Raise (KeyError "lamUz"))
  /\ mcmc_trace calib_samples None (-1) None 500 true 10 None
     = ([], Raise (TypeError "invalid start index"))
  /\ mcmc_trace [("lamUz", mk_array 1 [])]%string None 0 None 500 true 10 None
     = ([], Raise (TypeError "invalid end index")).
Proof.
  split; [| split].
  - apply (proj1 (mcmc_trace_checks_window _ None 0 None 500 true 10 None)).
    reflexivity.
  - apply (proj2 (mcmc_trace_checks_window calib_samples None (-1) None 500
                    true 10 None) lamUz_samples).
    + reflexivity.
    + reflexivity.
  - apply (proj2 (mcmc_trace_checks_window _ None 0 None 500 true 10 None)
             (mk_array 1 [])).
    + reflexivity.
    + discriminate.
    + left. reflexivity.
Defined.

(** ** [mcmc_trace]: what is drawn *)

Lemma outcome_ok {A} (m : Py A) (a : A) :
  outcome m = Ok a -> exists t, m = (t, Ok a).
Proof. destruct m as [t r]. simpl. intros ->. exists t. reflexivity. Qed.

Lemma bind_ok_inv {A B} (m : Py A) (f : A -> Py B) t (b : B) :
  bind m f = (t, Ok b) ->
  exists t1 a t2, m = (t1, Ok a) /\ f a = (t2, Ok b) /\ t = t1 ++ t2.
Proof.
  unfold bind. destruct m as [t1 [a | e]]; [| discriminate].
  destruct (f a) as [t2 r] eqn:Hf. intros H. inversion H; subst.
  exists t1, a, t2. auto.
Qed.

Lemma row_at_in a r t row : row_at a r = (t, Ok row) -> In row (rows a).
Proof.
  unfold row_at.
  destruct ((r <? - Z.of_nat (shape0 a)) || (Z.of_nat (shape0 a) <=? r));
    [discriminate |].
  destruct (nth_error _ _) as [row' |] eqn:Hn; [| discriminate].
  intros H. inversion H; subst. apply nth_error_In in Hn. exact Hn.
Qed.

Lemma take_rows_from a idx :
  forall acc t data,
    for_each idx (fun acc r => row <- row_at a r ;; ret (acc ++ [row])) acc
    = (t, Ok data) ->
    exists picked,
      data = acc ++ picked /\ length picked = length idx
      /\ Forall (fun r => In r (rows a)) picked.
Proof.
  induction idx as [| r idx IH]; intros acc t data H; simpl in H.
  - inversion H; subst. exists []. rewrite app_nil_r. auto.
  - apply bind_ok_inv in H. destruct H as (t1 & acc' & t2 & H1 & H2 & _).
    apply bind_ok_inv in H1. destruct H1 as (t3 & row & t4 & Hrow & Hret & _).
    inversion Hret; subst acc'. apply row_at_in in Hrow.
    apply IH in H2. destruct H2 as (picked & -> & Hlen & Hall).
    exists (row :: picked). rewrite <- app_assoc. simpl.
    repeat split; [lia | constructor; assumption].
Qed.

Lemma take_rows_ok a idx data :
  outcome (take_rows a idx) = Ok data ->
  length data = length idx /\ Forall (fun r => In r (rows a)) data.
Proof.
  intros H. apply outcome_ok in H. destruct H as [t H].
  apply take_rows_from in H. destruct H as (picked & -> & Hlen & Hall).
  simpl. auto.
Qed.

Lemma take_column_length a idx j y :
  outcome (take_column a idx j) = Ok y -> length y = length idx.
Proof.
  unfold take_column. destruct (shape1 a <=? j)%nat; [discriminate |].
  intros H. apply outcome_ok in H. destruct H as [t H].
  apply bind_ok_inv in H. destruct H as (t1 & picked & t2 & H1 & H2 & _).
  inversion H2; subst. rewrite length_map.
  apply (take_rows_ok a idx). rewrite H1. reflexivity.
Qed.

Lemma in_range j n : In j (range n) -> Z.of_nat j < n.
Proof. unfold range. intros H. apply in_seq in H. lia. Qed.

Lemma py_min_le a b : py_min a b <= b /\ py_min a b <= a.
Proof. unfold py_min. destruct (Z.ltb_spec b a); lia. Qed.

Ltac events_step_ok :=
  cbv beta zeta;
  match goal with
  | |- all_events _ (ret _) => apply all_events_ret
  | |- all_events _ (raise _) => apply all_events_raise
  | |- all_events _ (getitem _ _) => apply all_events_getitem
  | |- all_events _ (list_getitem _ _) => apply all_events_list_getitem
  | |- all_events _ (take_rows _ _) => apply all_events_take_rows
  | |- all_events _ (take_column _ _ _) => apply all_events_take_column
  | |- all_events _ (axs_getitem _ _) => apply all_events_axs_getitem
  | |- all_events _ (np_linspace_int _ _ _) => apply all_events_linspace
  | |- all_events _ (bind _ _) => apply all_events_bind_ok; [| intros ? ?]
  | |- all_events _ (for_each _ _ _) =>
      apply all_events_for_each_in; intros ? ? ?
  | |- all_events _ (emit _) => apply all_events_emit
  | |- all_events _ (match ?x with _ => _ end) => destruct x eqn:?
  end.

(** X7. Every line that [mcmc_trace] draws has exactly one value per
    plotted sample index, and shows either the first column of its block or
    a column below [max_print]: no block gets more than
    [max(1, max_print)] traces. *)
Theorem mcmc_trace_lines
    (samples_dict : dict ndarray) (theta_names : option (list string))
    (start : Z) (end_ : option Z) (n_to_plot : Z) (by_group : bool)
    (max_print : Z) (save : option string) :
  all_events (line_ok max_print)
    (mcmc_trace samples_dict theta_names start end_ n_to_plot by_group
       max_print save).
Proof.
  unfold mcmc_trace, trace_indices, count_plots, trace_block, trace_group,
    group_label, savefig, plt_subplots, axs_set_ylabel, for_.
  repeat events_step_ok;
    simpl; try exact I;
    (split;
     [ match goal with
       | H : outcome (take_column _ _ _) = Ok _ |- _ =>
           apply take_column_length in H; exact H
       end
     | first
         [ left; reflexivity
         | right;
           match goal with
           | H : In _ (range (py_min ?a ?b)) |- _ =>
               apply in_range in H; pose proof (py_min_le a b); lia
           end ] ]).
Qed.

Lemma insert_sorted_in x l y : In y (insert_sorted x l) -> y = x \/ In y l.
Proof.
  induction l as [| z l IH]; simpl.
  - intros [H | []]. left. symmetry. exact H.
  - destruct (x <? z); [simpl; intuition |].
    destruct (x =? z); [simpl; intuition |].
    simpl. intros [H | H]; [intuition |].
    apply IH in H. intuition.
Qed.

Lemma insert_sorted_length x l : (length (insert_sorted x l) <= S (length l))%nat.
Proof.
  induction l as [| z l IH]; simpl; [lia |].
  destruct (x <? z); [simpl; lia |].
  destruct (x =? z); simpl; lia.
Qed.

Lemma insert_sorted_sorted x l :
  StronglySorted Z.lt l -> StronglySorted Z.lt (insert_sorted x l).
Proof.
  induction l as [| z l IH]; intros Hs; simpl.
  - constructor; constructor.
  - inversion Hs as [| ? ? Hl Hz]; subst.
    destruct (Z.ltb_spec x z) as [Hxz | Hxz].
    + constructor; [exact Hs |].
      constructor; [exact Hxz |].
      eapply Forall_impl; [| exact Hz]. simpl. intros. lia.
    + destruct (Z.eqb_spec x z) as [_ | Hne]; [exact Hs |].
      constructor; [apply IH; exact Hl |].
      apply Forall_forall. intros y Hy. apply insert_sorted_in in Hy.
      destruct Hy as [-> | Hy]; [lia |].
      rewrite Forall_forall in Hz. apply Hz. exact Hy.
Qed.

Lemma np_unique_spec l :
  (forall y, In y (np_unique l) -> In y l)
  /\ (length (np_unique l) <= length l)%nat
  /\ StronglySorted Z.lt (np_unique l).
Proof.
  induction l as [| x l (Hin & Hlen & Hs)]; simpl.
  - repeat split; [intros y [] | lia | constructor].
  - repeat split.
    + intros y Hy. apply insert_sorted_in in Hy.
      destruct Hy as [-> | Hy]; [left; reflexivity | right; apply Hin; exact Hy].
    + pose proof (insert_sorted_length x (np_unique l)). lia.
    + apply insert_sorted_sorted. exact Hs.
Qed.

Lemma np_arange_spec start stop :
  Forall (fun r => start <= r < stop) (np_arange start stop)
  /\ StronglySorted Z.lt (np_arange start stop)
  /\ Z.of_nat (length (np_arange start stop)) = Z.max 0 (stop - start).
Proof.
  unfold np_arange, range. set (k := Z.to_nat (stop - start)).
  assert (Hk : (Z.of_nat k <= Z.max 0 (stop - start))) by (unfold k; lia).
  repeat split.
  - apply Forall_forall. intros r Hr. apply in_map_iff in Hr.
    destruct Hr as (i & <- & Hi). apply in_seq in Hi. lia.
  - generalize 0%nat as a. clear Hk. induction k as [| k IH]; intros a; simpl.
    + constructor.
    + constructor; [apply IH |].
      apply Forall_forall. intros r Hr. apply in_map_iff in Hr.
      destruct Hr as (i & <- & Hi). apply in_seq in Hi. lia.
  - rewrite length_map, length_seq. unfold k. lia.
Qed.

(** The values of an integer [np.linspace] lie between its two ends. *)
Lemma np_linspace_int_ok start stop num t idx :
  start <= stop ->
  np_linspace_int start stop num = (t, Ok idx) ->
  0 <= num /\ Z.of_nat (length idx) = num
  /\ Forall (fun r => start <= r <= stop) idx.
Proof.
  intros Hle. unfold np_linspace_int.
  destruct (Z.ltb_spec num 0) as [Hneg | Hpos]; [discriminate |].
  destruct (Z.eqb_spec num 1) as [-> | Hne].
  - intros H. inversion H; subst. simpl.
    repeat split; try lia. constructor; [lia | constructor].
  - intros H. inversion H; subst. clear H.
    repeat split; [exact Hpos | unfold range; rewrite length_map, length_seq; lia |].
    apply Forall_forall. intros r Hr. apply in_map_iff in Hr.
    destruct Hr as (i & <- & Hi). apply in_range in Hi.
    destruct (num - 1) as [| p | p] eqn:Hp; try lia.
    cbn [Qinv inject_Z Qnum Qden].
    replace (start * Z.pos p + Z.of_nat i * (stop - start) * 1 * 1)
      with (start * Z.pos p + Z.of_nat i * (stop - start)) by ring.
    rewrite Z.div_add_l by lia.
    assert (H0 : 0 <= Z.of_nat i * (stop - start) / Z.pos p)
      by (apply Z.div_pos; nia).
    assert (H1 : Z.of_nat i * (stop - start) / Z.pos p <= stop - start).
    { apply Z.div_le_upper_bound; nia. }
    lia.
Qed.

(** The sample indices that [mcmc_trace] settles on. *)
Lemma trace_indices_ok samples_dict start end_ n_to_plot lamUz t idx :
  dict_get samples_dict "lamUz" = Some lamUz ->
  trace_indices samples_dict start end_ n_to_plot = (t, Ok idx) ->
  let n := Z.of_nat (shape0 lamUz) in
  Forall (fun r => start <= r <= end_index end_ n) idx
  /\ StronglySorted Z.lt idx
  /\ Z.of_nat (length idx) <= Z.min n_to_plot n.
Proof.
  intros Hl H n. unfold trace_indices, getitem in H.
  rewrite Hl, bind_ret in H. fold n in H. fold (end_index end_ n) in H.
  set (e := end_index end_ n) in *.
  assert (Hn' : (if n_to_plot >? n then n else n_to_plot) = Z.min n_to_plot n).
  { rewrite Z.gtb_ltb. destruct (Z.ltb_spec n n_to_plot); lia. }
  rewrite Hn' in H. set (n' := Z.min n_to_plot n) in *.
  destruct (Z.ltb_spec start 0) as [| Hs]; [discriminate |].
  destruct ((start >? e) || (e <? 0) || (e >? n)) eqn:Hw; [discriminate |].
  rewrite !orb_false_iff, !Z.gtb_ltb, !Z.ltb_ge in Hw.
  destruct Hw as [[Hse He0] Hen].
  rewrite Z.gtb_ltb in H. destruct (Z.ltb_spec n' (e - start)) as [Hlin | Har].
  - apply bind_ok_inv in H. destruct H as (t1 & l & t2 & Hl1 & Hl2 & _).
    inversion Hl2; subst idx.
    apply np_linspace_int_ok in Hl1; [| exact Hse].
    destruct Hl1 as (Hnum & Hlen & Hall).
    destruct (np_unique_spec l) as (Hin & Hlen' & Hsorted).
    repeat split; [| exact Hsorted | lia].
    apply Forall_forall. intros r Hr. rewrite Forall_forall in Hall.
    apply Hall, Hin, Hr.
  - inversion H; subst idx.
    destruct (np_arange_spec start e) as (Hall & Hsorted & Hlen).
    repeat split; [| exact Hsorted | lia].
    eapply Forall_impl; [| exact Hall]. simpl. intros. lia.
Qed.

Lemma all_events_trace_indices P samples_dict start end_ n_to_plot :
  all_events P (trace_indices samples_dict start end_ n_to_plot).
Proof. unfold trace_indices. repeat events_step. Qed.

(** X6. The sample indices on the x axis of every line that [mcmc_trace]
    draws lie between [start] and [end] (by default the number of samples
    minus one, so that they are valid sample indices), grow strictly, and are
    at most [min(n_to_plot, n_samples)]. *)
Theorem mcmc_trace_window
    (samples_dict : dict ndarray) (theta_names : option (list string))
    (start : Z) (end_ : option Z) (n_to_plot : Z) (by_group : bool)
    (max_print : Z) (save : option string) (lamUz : ndarray) :
  dict_get samples_dict "lamUz" = Some lamUz ->
  let n := Z.of_nat (shape0 lamUz) in
  all_events (in_window start (end_index end_ n) (Z.min n_to_plot n))
    (mcmc_trace samples_dict theta_names start end_ n_to_plot by_group
       max_print save).
Proof.
  intros Hl n. unfold mcmc_trace.
  apply all_events_bind_ok; [apply all_events_trace_indices |].
  intros plot_idx Hidx. apply outcome_ok in Hidx. destruct Hidx as [t Hidx].
  pose proof (trace_indices_ok _ _ _ _ _ _ _ Hl Hidx) as Hwin.
  unfold count_plots, trace_block, trace_group, group_label, savefig,
    plt_subplots, axs_set_ylabel.
  repeat events_step; simpl; try exact I; exact Hwin.
Qed.

Lemma mcmc_trace_window_witness :
  all_events (in_window 0 2 3)
    (mcmc_trace calib_samples None 0 None 500 true 10 None).
Proof.
  apply (mcmc_trace_window calib_samples None 0 None 500 true 10 None
           lamUz_samples).
  reflexivity.
Defined.

(** ** [theta_pairs]: what is drawn *)

Lemma np_linspace_int_length start stop num idx :
  outcome (np_linspace_int start stop num) = Ok idx ->
  Z.of_nat (length idx) = num.
Proof.
  unfold np_linspace_int.
  destruct (Z.ltb_spec num 0) as [Hneg | Hpos]; [discriminate |].
  destruct (Z.eqb_spec num 1) as [-> | Hne]; simpl; intros H; inversion H.
  - reflexivity.
  - unfold range. rewrite length_map, length_seq. lia.
Qed.

Lemma list_getitem_repeat {A} (x y : A) n i :
  outcome (list_getitem (repeat x n) i) = Ok y -> y = x.
Proof.
  unfold list_getitem. destruct (nth_error _ _) as [z |] eqn:Hn;
    [| discriminate].
  simpl. intros H. inversion H; subst.
  apply nth_error_In in Hn. apply repeat_spec in Hn. exact Hn.
Qed.

Ltac thinned_done :=
  simpl; try exact I;
  match goal with
  | Hidx : outcome (np_linspace_int _ _ _) = Ok _ |- _ =>
      apply np_linspace_int_length in Hidx;
      match goal with
      | Hdata : outcome (take_rows _ _) = Ok _ |- _ =>
          apply take_rows_ok in Hdata;
          let Hlen := fresh "Hlen" in
          let Hall := fresh "Hall" in
          destruct Hdata as [Hlen Hall];
          split; [rewrite Hlen; exact Hidx | exact Hall]
      end
  end.

Lemma theta_pairs_plot_thins theta design_names native lims theta_ref save :
  all_events (thinned theta)
    (theta_pairs_plot theta design_names native lims theta_ref save).
Proof.
  unfold theta_pairs_plot, set_limits, plot_reference, savefig, for_.
  repeat events_step_ok; thinned_done.
Qed.

(** X9. [theta_pairs] thins the chain before plotting: the rows handed to
    the pairs plot (or to the distribution plot of a single theta) are rows
    of the chosen array, and their number is [min(n_samp - 1, 1000)]: never
    more than 1000, and always fewer than the number of samples. *)
Theorem theta_pairs_thins
    (samples_dict : dict ndarray) (design_names : option (list string))
    (native : bool) (lims : option (list (Q * Q))) (theta_ref : option (list Q))
    (save : option string) (theta : ndarray) :
  dict_get samples_dict (if native then "theta_native" else "theta")%string
  = Some theta ->
  all_events (thinned theta)
    (theta_pairs samples_dict design_names native lims theta_ref save).
Proof.
  intros Ha. unfold theta_pairs.
  destruct (contains samples_dict "theta"); cbn [negb].
  - unfold getitem. destruct native; cbn [negb]; rewrite Ha, bind_ret;
      apply theta_pairs_plot_thins.
  - apply all_events_bind; [apply all_events_emit; exact I |].
    intros _. apply all_events_ret.
Qed.

Lemma theta_pairs_thins_witness :
  all_events (thinned theta_samples)
    (theta_pairs calib_samples None false None None None).
Proof.
  apply (theta_pairs_thins calib_samples None false None None None
           theta_samples).
  reflexivity.
Defined.

Ltac limits_done :=
  simpl; try exact I;
  match goal with
  | H : outcome (list_getitem (repeat _ _) _) = Ok _ |- _ =>
      apply list_getitem_repeat in H; subst; split; reflexivity
  end.

Lemma list_getitem_unit n i :
  (i < n)%nat -> list_getitem (repeat (0%Q, 1%Q) n) i = ret (0%Q, 1%Q).
Proof.
  intros Hi. unfold list_getitem.
  destruct (nth_error _ _) as [z |] eqn:Hn.
  - apply nth_error_In, repeat_spec in Hn. subst z. reflexivity.
  - apply nth_error_None in Hn. rewrite repeat_length in Hn. lia.
Qed.

(** Lines 56-63 with the default limits. *)
Lemma set_limits_default n :
  set_limits n (repeat (0%Q, 1%Q) n) = (unit_limit_events n, Ok tt).
Proof.
  unfold set_limits, unit_limit_events.
  apply for_emits. intros i Hi. apply in_seq in Hi.
  apply for_emits. intros j Hj. apply in_seq in Hj.
  destruct (i =? j)%nat.
  - rewrite list_getitem_unit, bind_ret by lia. reflexivity.
  - rewrite (list_getitem_unit n j), bind_ret by lia.
    unfold bind at 1. cbn [emit].
    rewrite (list_getitem_unit n i), bind_ret by lia. reflexivity.
Qed.

Lemma unit_limit_events_in n i j :
  (i < n)%nat -> (j < n)%nat ->
  if (i =? j)%nat
  then In (EDiagXLim i 0 1) (unit_limit_events n)
       /\ In (ESetXLim i i 0 1) (unit_limit_events n)
  else In (ESetXLim i j 0 1) (unit_limit_events n)
       /\ In (ESetYLim i j 0 1) (unit_limit_events n).
Proof.
  intros Hi Hj. unfold unit_limit_events.
  assert (H : forall ev,
            In ev (if (i =? j)%nat then [EDiagXLim i 0 1; ESetXLim i i 0 1]
                   else [ESetXLim i j 0 1; ESetYLim i j 0 1]) ->
            In ev (flat_map (fun i =>
                     flat_map (fun j =>
                       if (i =? j)%nat then [EDiagXLim i 0 1; ESetXLim i i 0 1]
                       else [ESetXLim i j 0 1; ESetYLim i j 0 1])
                     (seq 0 n)) (seq 0 n))).
  { intros ev Hev. apply in_flat_map. exists i. split; [apply in_seq; lia |].
    apply in_flat_map. exists j. split; [apply in_seq; lia | exact Hev]. }
  destruct (i =? j)%nat; split; apply H; simpl; auto.
Qed.

(** A call of [theta_pairs] that returns the pairs plot has made all the
    limit calls. *)
Lemma theta_pairs_grid_limits samples_dict design_names theta_ref save theta
    fig :
  dict_get samples_dict "theta" = Some theta ->
  (2 <= shape1 theta)%nat ->
  outcome (theta_pairs samples_dict design_names false None theta_ref save)
  = Ok (Some fig) ->
  exists t1 t2,
    trace (theta_pairs samples_dict design_names false None theta_ref save)
    = t1 ++ unit_limit_events (shape1 theta) ++ t2.
Proof.
  intros Hget Hwide Hout. apply outcome_ok in Hout. destruct Hout as [t Ht].
  rewrite Ht. unfold trace. cbn [fst].
  unfold theta_pairs, contains, getitem in Ht. rewrite Hget in Ht.
  cbn [negb] in Ht. rewrite bind_ret in Ht.
  unfold theta_pairs_plot in Ht. cbv beta iota zeta in Ht. cbn [negb] in Ht.
  apply bind_ok_inv in Ht. destruct Ht as (t3 & [] & t4 & _ & Ht & ->).
  apply bind_ok_inv in Ht. destruct Ht as (t5 & idx & t6 & _ & Ht & ->).
  apply bind_ok_inv in Ht. destruct Ht as (t7 & data & t8 & _ & Ht & ->).
  destruct (existsb _ _); [discriminate Ht |].
  replace (2 <? shape1 theta + 1)%nat with true in Ht
    by (symmetry; apply Nat.ltb_lt; lia).
  apply bind_ok_inv in Ht. destruct Ht as (t9 & [] & t10 & _ & Ht & ->).
  apply bind_ok_inv in Ht. destruct Ht as (t11 & [] & t12 & Hl & Ht & ->).
  rewrite set_limits_default in Hl. inversion Hl; subst.
  exists (t3 ++ t5 ++ t7 ++ t9), t12.
  rewrite <- !app_assoc. reflexivity.
Qed.

(** X10. When [lims] is not given, [theta_pairs] with [native=False] sets
    every axis limit of the pairs plot to the unit interval: no other limit
    is set, and a call that returns the pairs plot of two or more thetas
    has set, for all [i, j < n_theta], the x limits of the diagonal axis
    and of [axes[i, i]] and, for [j <> i], the x and y limits of
    [axes[i, j]], each to (0, 1).  With [native=True] it sets no axis limit
    at all. *)
Theorem theta_pairs_default_limits
    (samples_dict : dict ndarray) (design_names : option (list string))
    (theta_ref : option (list Q)) (save : option string) :
  all_events unit_limits
    (theta_pairs samples_dict design_names false None theta_ref save)
  /\ (forall theta fig,
         dict_get samples_dict "theta" = Some theta ->
         (2 <= shape1 theta)%nat ->
         outcome (theta_pairs samples_dict design_names false None theta_ref
                    save) = Ok (Some fig) ->
         forall i j, (i < shape1 theta)%nat -> (j < shape1 theta)%nat ->
           let t := trace (theta_pairs samples_dict design_names false None
                             theta_ref save) in
           if (i =? j)%nat
           then In (EDiagXLim i 0 1) t /\ In (ESetXLim i i 0 1) t
           else In (ESetXLim i j 0 1) t /\ In (ESetYLim i j 0 1) t)
  /\ all_events no_limits
       (theta_pairs samples_dict design_names true None theta_ref save).
Proof.
  split; [| split].
  - unfold theta_pairs, theta_pairs_plot, set_limits, plot_reference, savefig,
      for_.
    cbn [negb]. repeat events_step_ok; limits_done.
  - intros theta fig Hget Hwide Hout i j Hi Hj.
    destruct (theta_pairs_grid_limits _ _ _ _ _ _ Hget Hwide Hout)
      as (t1 & t2 & ->).
    pose proof (unit_limit_events_in (shape1 theta) i j Hi Hj) as H.
    cbv zeta. destruct (i =? j)%nat; destruct H as [Ha Hb];
      split; apply in_or_app; right; apply in_or_app; left; assumption.
  - unfold theta_pairs, theta_pairs_plot, set_limits, plot_reference, savefig,
      for_.
    cbn [negb]. repeat events_step_ok; simpl; exact I.
Qed.

Lemma theta_pairs_default_limits_witness :
  (In (EDiagXLim 0 0 1)
      (trace (theta_pairs calib_samples None false None None None))
   /\ In (ESetXLim 0 0 0 1)
         (trace (theta_pairs calib_samples None false None None None)))
  /\ (In (ESetXLim 1 0 0 1)
         (trace (theta_pairs calib_samples None false None None None))
      /\ In (ESetYLim 1 0 0 1)
            (trace (theta_pairs calib_samples None false None None None))).
Proof.
  split.
  - apply (proj1 (proj2 (theta_pairs_default_limits calib_samples None None
                           None))
             theta_samples (PairGridFig 2) eq_refl ltac:(simpl; lia) eq_refl
             0%nat 0%nat); simpl; lia.
  - apply (proj1 (proj2 (theta_pairs_default_limits calib_samples None None
                           None))
             theta_samples (PairGridFig 2) eq_refl ltac:(simpl; lia) eq_refl
             1%nat 0%nat); simpl; lia.
Defined.

(** ** [param_stats]: the row labels *)

(** X12. The row labels of the table of [param_stats]: when the label
    check lets the call through, every block holds at least one sample,
    the levels are in [0, 1] and the list of names, if any, is at least as
    long as the first block is wide, the
    index of the table is, block after block, the key itself for a block of
    width one and [key_1, ..., key_n] for a wider block, except that the
    columns of the first block, whatever its key, are labelled with the
    first names of [theta_names] when it is given. *)
Theorem param_stats_row_labels
    (np : Numerics) (d : dict ndarray) (theta_names : option (list string))
    (q1 q2 : Q) (digits : Z) :
  wf_dict d -> names_pass theta_names d -> has_samples d ->
  (forall names k a rest,
      theta_names = Some names -> d = (k, a) :: rest ->
      (shape1 a <= length names)%nat) ->
  level_ok q1 -> level_ok q2 ->
  exists df,
    param_stats np d theta_names q1 q2 digits = ([], Ok (Some df))
    /\ df_index df = labels_from theta_names 0 d
    /\ (forall names k a rest,
           theta_names = Some names -> d = (k, a) :: rest ->
           firstn (shape1 a) (df_index df) = firstn (shape1 a) names).
Proof.
  intros Hwf Hpass Hfull Hfirst H1 H2.
  rewrite names_pass_table by exact Hpass.
  rewrite stats_table_ok; try assumption.
  - eexists. split; [reflexivity |]. split; [reflexivity |].
    intros names k a rest -> ->.
    specialize (Hfirst names k a rest eq_refl eq_refl).
    unfold stats_frame, stats_spec. cbn [df_index st_keys labels_from].
    unfold block_labels.
    assert (E : map (column_label (Some names) 0 k (shape1 a))
                    (seq 0 (shape1 a)) = firstn (shape1 a) names).
    { rewrite <- (map_id names) at 2.
      rewrite (firstn_map_nth (fun x => x) ""%string names) by exact Hfirst.
      reflexivity. }
    rewrite E, firstn_app, length_firstn.
    replace (shape1 a - Nat.min (shape1 a) (length names))%nat with 0%nat by lia.
    rewrite firstn_firstn, Nat.min_id. simpl. rewrite app_nil_r. reflexivity.
  - destruct d as [| [k a] rest]; [exact I |].
    unfold names_cover. destruct theta_names as [names |]; [| exact I].
    intros _. apply (Hfirst names k a rest); reflexivity.
Qed.

Lemma sim_samples_wf : wf_dict sim_samples.
Proof.
  unfold wf_dict, sim_samples, keys. simpl.
  repeat constructor; simpl; intuition discriminate.
Defined.

Lemma param_stats_row_labels_witness :
  exists df,
    param_stats Ref.numerics sim_samples (Some ["a"; "b"]%string)
      (1 # 20) (19 # 20) 4 = ([], Ok (Some df))
    /\ df_index df = ["a"; "b"; "lamUz"]%string
    /\ (forall names k a rest,
           Some ["a"; "b"]%string = Some names ->
           sim_samples = (k, a) :: rest ->
           firstn (shape1 a) (df_index df) = firstn (shape1 a) names).
Proof.
  apply (param_stats_row_labels Ref.numerics sim_samples
           (Some ["a"; "b"]%string) (1 # 20) (19 # 20) 4).
  - exact sim_samples_wf.
  - exact I.
  - repeat constructor.
  - intros names k a rest Hn Hd. inversion Hn; subst. inversion Hd; subst.
    simpl. lia.
  - split; discriminate.
  - split; discriminate.
Defined.

Lemma stats_column_named np names q1 q2 digits k a st j :
  level_ok q1 -> level_ok q2 -> (0 < shape0 a)%nat -> (j < length names)%nat ->
  exists st', stats_column np (Some names) q1 q2 digits 0 k a st j = ret st'.
Proof.
  intros H1 H2 Ha Hj. unfold stats_column.
  rewrite (quantile_ok _ _ _ _ H1 Ha), bind_ret.
  rewrite (quantile_ok _ _ _ _ H2 Ha), bind_ret.
  cbn [Nat.eqb]. unfold list_getitem.
  rewrite (nth_error_nth' names ""%string) by exact Hj.
  rewrite bind_ret. eexists. reflexivity.
Qed.

Lemma stats_column_unnamed np names q1 q2 digits k a st j :
  level_ok q1 -> level_ok q2 -> (0 < shape0 a)%nat -> (length names <= j)%nat ->
  stats_column np (Some names) q1 q2 digits 0 k a st j
  = raise (IndexError "list index out of range").
Proof.
  intros H1 H2 Ha Hj. unfold stats_column.
  rewrite (quantile_ok _ _ _ _ H1 Ha), bind_ret.
  rewrite (quantile_ok _ _ _ _ H2 Ha), bind_ret.
  cbn [Nat.eqb]. unfold list_getitem.
  rewrite (proj2 (nth_error_None names j) Hj). reflexivity.
Qed.

Lemma stats_columns_short np names q1 q2 digits k a :
  level_ok q1 -> level_ok q2 -> (0 < shape0 a)%nat ->
  forall n s st, (s <= length names < s + n)%nat ->
    for_each (seq s n) (stats_column np (Some names) q1 q2 digits 0 k a) st
    = raise (IndexError "list index out of range").
Proof.
  intros H1 H2 Ha. induction n as [| n IH]; intros s st Hs; [lia |].
  cbn [seq for_each].
  destruct (Nat.eq_dec s (length names)) as [E | E].
  - rewrite stats_column_unnamed by (assumption || lia). reflexivity.
  - destruct (stats_column_named np names q1 q2 digits k a st s H1 H2 Ha)
      as [st' ->]; [lia |].
    rewrite bind_ret. apply IH. lia.
Qed.

(** On a block without samples the first quantile cannot be taken. *)
Lemma stats_columns_empty np names q1 q2 digits i k a st n :
  level_ok q1 -> shape0 a = 0%nat ->
  for_each (seq 0 (S n)) (stats_column np names q1 q2 digits i k a) st
  = raise (IndexError "index -1 is out of bounds for axis 0 with size 0").
Proof.
  intros H1 Ha. cbn [seq for_each]. unfold stats_column at 1.
  rewrite (quantile_empty _ _ _ _ H1 Ha). reflexivity.
Qed.

(** X11. [param_stats] labels the columns of the first block of the
    dictionary with [theta_names], whatever the key of that block: when the
    label check lets the call through (for instance on a dictionary without
    ['theta']) and the first block is wider than the list of names, the call
    raises [IndexError] and returns no table: the error of the missing
    name, or on a first block without samples that of [np.quantile]. *)
Theorem param_stats_names_too_short
    (np : Numerics) (k : string) (a : ndarray) (rest : dict ndarray)
    (names : list string) (q1 q2 : Q) (digits : Z) :
  names_pass (Some names) ((k, a) :: rest) ->
  level_ok q1 -> level_ok q2 ->
  (length names < shape1 a)%nat ->
  param_stats np ((k, a) :: rest) (Some names) q1 q2 digits
  = ([], Raise (IndexError
                  (if (shape0 a =? 0)%nat
                   then "index -1 is out of bounds for axis 0 with size 0"
                   else "list index out of range"))).
Proof.
  intros Hpass H1 H2 Hlen.
  rewrite names_pass_table by exact Hpass.
  unfold stats_table, enumerate, keys. cbn [map length seq combine for_each fst].
  unfold stats_block at 1, getitem. cbn [fst snd dict_get].
  rewrite String.eqb_refl, bind_ret.
  destruct (Nat.eqb_spec (shape0 a) 0) as [Ha | Ha].
  - destruct (shape1 a) as [| n]; [lia |].
    rewrite (stats_columns_empty np (Some names) q1 q2 digits 0 k a no_stats n
               H1 Ha).
    reflexivity.
  - rewrite (stats_columns_short np names q1 q2 digits k a H1 H2) by lia.
    reflexivity.
Qed.

Lemma param_stats_names_too_short_witness :
  param_stats Ref.numerics sim_samples (Some ["a"%string]) (1 # 20) (19 # 20) 4
  = ([], Raise (IndexError "list index out of range")).
Proof.
  apply (param_stats_names_too_short Ref.numerics "betaU" betaU_samples
           (tl sim_samples) ["a"%string] (1 # 20) (19 # 20) 4).
  - exact I.
  - split; discriminate.
  - split; discriminate.
  - simpl. lia.
Defined.

(** ** The designs of the Kronecker test, for any factors *)

Lemma flat_map_ext_in {A B} (f g : A -> list B) (l : list A) :
  (forall x, In x l -> f x = g x) -> flat_map f l = flat_map g l.
Proof.
  induction l as [| x l IH]; intros H; simpl; [reflexivity |].
  rewrite (H x) by (left; reflexivity).
  rewrite IH; [reflexivity |]. intros y Hy. apply H. right. exact Hy.
Qed.

Lemma flat_map_map {A B C} (f : B -> list C) (g : A -> B) (l : list A) :
  flat_map f (map g l) = flat_map (fun x => f (g x)) l.
Proof. induction l as [| x l IH]; simpl; [| rewrite IH]; reflexivity. Qed.

Lemma map_nth_seq {A} (d : A) (l : list A) :
  map (fun i => nth i l d) (seq 0 (length l)) = l.
Proof.
  induction l as [| x l IH]; simpl; [reflexivity |].
  rewrite <- seq_shift, map_map. simpl. rewrite IH. reflexivity.
Qed.

Lemma combine_app {A B} (l1 l2 : list A) (k1 k2 : list B) :
  length l1 = length k1 ->
  combine (l1 ++ l2) (k1 ++ k2) = combine l1 k1 ++ combine l2 k2.
Proof.
  revert k1. induction l1 as [| x l1 IH]; intros [| y k1] H; simpl in *;
    try discriminate; [reflexivity |].
  rewrite IH by lia. reflexivity.
Qed.

Lemma combine_map {A B C} (f : A -> B) (g : A -> C) (l : list A) :
  combine (map f l) (map g l) = map (fun x => (f x, g x)) l.
Proof. induction l as [| x l IH]; simpl; [| rewrite IH]; reflexivity. Qed.

(** The two index vectors of lines 14-16. *)
Lemma meshgrid_indices (n m : nat) :
  KronTest.flatten_F n (fst (KronTest.meshgrid n m))
  = flat_map (fun j => map (fun _ => j) (seq 0 m)) (seq 0 n)
  /\ KronTest.flatten_F n (snd (KronTest.meshgrid n m))
     = flat_map (fun _ => seq 0 m) (seq 0 n).
Proof.
  unfold KronTest.flatten_F, KronTest.meshgrid. cbn [fst snd]. split.
  - apply flat_map_ext_in. intros j Hj. apply in_seq in Hj.
    rewrite map_map. apply map_ext. intros _. apply seq_nth. lia.
  - apply flat_map_ext_in. intros j Hj. apply in_seq in Hj.
    rewrite map_map. rewrite <- (map_id (seq 0 m)) at 2.
    apply map_ext. intros i.
    assert (Hin : In (nth j (repeat i n) 0%nat) (repeat i n))
      by (apply nth_In; rewrite repeat_length; lia).
    apply repeat_spec in Hin. exact Hin.
Qed.

Lemma grid_rows (a b : list (list Q)) (js : list nat) :
  KronTest.hstack
    (KronTest.take a (flat_map (fun j => map (fun _ => j) (seq 0 (length b))) js))
    (KronTest.take b (flat_map (fun _ => seq 0 (length b)) js))
  = flat_map (fun j => map (fun row => nth j a [] ++ row) b) js.
Proof.
  unfold KronTest.hstack, KronTest.take.
  induction js as [| j js IH]; simpl; [reflexivity |].
  rewrite !map_app, combine_app, map_app, IH
    by (rewrite !length_map; reflexivity).
  f_equal. rewrite map_map, combine_map, map_map. cbn [fst snd].
  rewrite <- (map_nth_seq [] b) at 2. rewrite map_map. reflexivity.
Qed.

Lemma joint_design_pair (a b : list (list Q)) :
  KronTest.joint_design [a; b]
  = flat_map (fun r1 => map (fun r2 => r1 ++ r2) b) a.
Proof.
  cbn [KronTest.joint_design].
  assert (E : flat_map (fun row => map (fun tail => row ++ tail) [[]]) b = b).
  { induction b as [| r b IH]; simpl; [reflexivity |].
    rewrite app_nil_r. f_equal. exact IH. }
  rewrite E. reflexivity.
Qed.

Lemma cal_design_cons (xs : list (list Q)) :
  KronTest.cal_design xs = map (cons (1 # 2)) xs.
Proof.
  unfold KronTest.cal_design, KronTest.hstack.
  induction xs as [| r xs IH]; [reflexivity |].
  cbn [length repeat map combine fst snd].
  rewrite <- app_assoc, firstn_skipn. f_equal. exact IH.
Qed.

(** The general constructions are what the script computes on its data. *)
Lemma kron_test_is_grid :
  KronTest.x_sim = KronTest.grid_design KronTest.x1 KronTest.x2
  /\ KronTest.hstack KronTest.x_sim_cal KronTest.t_sim_cal
     = KronTest.cal_design KronTest.x_sim.
Proof. split; reflexivity. Qed.

(** X1. The joint design that the test script builds from two factor
    matrices with [np.meshgrid], a column-major reshape and [np.hstack] is,
    for any two factor matrices, the design that the list of the two
    factors stands for: the Cartesian product of their rows, the first
    factor varying slowest, with as many rows as the product of the two row
    counts.  The calibration design built from it ([x_sim_cal] beside
    [t_sim_cal]) is the joint design of the three factors of [xt_sim_sep]. *)
Theorem kron_grid_is_joint_design (a b : list (list Q)) :
  KronTest.grid_design a b = KronTest.joint_design [a; b]
  /\ length (KronTest.grid_design a b) = (length a * length b)%nat
  /\ KronTest.cal_design (KronTest.grid_design a b)
     = KronTest.joint_design [[[1 # 2]]; a; b].
Proof.
  assert (E : KronTest.grid_design a b = KronTest.joint_design [a; b]).
  { unfold KronTest.grid_design.
    destruct (meshgrid_indices (length a) (length b)) as [-> ->].
    rewrite grid_rows, joint_design_pair.
    rewrite <- (map_nth_seq [] a) at 2. rewrite flat_map_map. reflexivity. }
  split; [exact E |]. split.
  - rewrite E, joint_design_pair. clear E.
    induction a as [| r a IH]; simpl; [reflexivity |].
    rewrite length_app, length_map, IH. reflexivity.
  - rewrite cal_design_cons, E.
    change (KronTest.joint_design [[[1 # 2]]; a; b])
      with (map (fun tail => [1 # 2] ++ tail) (KronTest.joint_design [a; b])
            ++ []).
    rewrite app_nil_r. reflexivity.
Qed.

(** ** [theta_pairs]: up to the plotting call *)

Lemma take_rows_runs a idx :
  Forall (fun r => 0 <= r < Z.of_nat (shape0 a)) idx ->
  forall acc,
    exists data,
      for_each idx (fun acc r => row <- row_at a r ;; ret (acc ++ [row])) acc
      = ([], Ok data).
Proof.
  induction 1 as [| r idx Hr _ IH]; intros acc; simpl.
  - exists acc. reflexivity.
  - assert (E : exists row, row_at a r = ret row).
    { unfold row_at.
      replace ((r <? - Z.of_nat (shape0 a)) || (Z.of_nat (shape0 a) <=? r))
        with false
        by (symmetry; apply orb_false_iff; split;
            [apply Z.ltb_ge | apply Z.leb_gt]; lia).
      replace (r <? 0) with false by (symmetry; apply Z.ltb_ge; lia).
      destruct (nth_error (rows a) (Z.to_nat r)) as [row |] eqn:Hn.
      - exists row. reflexivity.
      - apply nth_error_None in Hn. unfold shape0 in Hr. lia. }
    destruct E as [row ->]. rewrite !bind_ret. apply IH.
Qed.

(** The thinning of [theta_pairs] runs on any chain with a sample. *)
Lemma thinning_runs a :
  (1 <= shape0 a)%nat ->
  exists idx data,
    np_linspace_int 0 (Z.of_nat (shape0 a) - 1)
      (Z.min (Z.of_nat (shape0 a) - 1) 1000) = ([], Ok idx)
    /\ take_rows a idx = ([], Ok data).
Proof.
  intros Hn.
  destruct (np_linspace_int 0 (Z.of_nat (shape0 a) - 1)
              (Z.min (Z.of_nat (shape0 a) - 1) 1000)) as [t [idx | e]] eqn:E.
  - pose proof E as E'. apply np_linspace_int_ok in E'; [| lia].
    destruct E' as (_ & _ & Hall).
    assert (t = []).
    { unfold np_linspace_int in E.
      destruct (_ <? 0); [discriminate |].
      destruct (_ =? 1); inversion E; reflexivity. }
    subst t. destruct (take_rows_runs a idx) with (acc := @nil (list Q))
      as [data Hd].
    + eapply Forall_impl; [| exact Hall]. simpl. intros. lia.
    + exists idx, data. split; [reflexivity | exact Hd].
  - exfalso. unfold np_linspace_int in E.
    destruct (Z.ltb_spec (Z.min (Z.of_nat (shape0 a) - 1) 1000) 0); [lia |].
    destruct (_ =? 1); discriminate.
Qed.

Lemma default_names_no_idx (l : list nat) :
  existsb (String.eqb "idx")
    (map (fun i => ("theta_" ++ str_nat (i + 1))%string) l) = false.
Proof. induction l as [| i l IH]; simpl; [reflexivity | exact IH]. Qed.

Lemma no_idx_existsb (l : list string) :
  ~ In "idx"%string l -> existsb (String.eqb "idx") l = false.
Proof.
  intros H. destruct (existsb _ l) eqn:E; [| reflexivity].
  apply existsb_exists in E. destruct E as (x & Hx & Heq).
  apply String.eqb_eq in Heq. subst x. contradiction.
Qed.

Lemma trace_bind_emit {B} ev (f : unit -> Py B) :
  trace (bind (emit ev) f) = ev :: trace (f tt).
Proof. unfold trace, bind, emit. destruct (f tt). reflexivity. Qed.

(** X14. [theta_pairs] gets as far as its plotting call whenever the
    dictionary has the key ['theta'] and the array to plot
    (['theta_native'] when [native] is set), that array has at least one
    sample and one column, and the design names, if given, are one per
    column and none is ['idx']: nothing is raised or drawn before, and the
    first plotting call is a pairs grid over the columns under the design
    names, by default ['theta_1', ..., 'theta_n'], when there are two or
    more thetas, and otherwise a single axis with the distribution plot of
    the one column, labelled with its name. *)
Theorem theta_pairs_reaches_plot
    (samples_dict : dict ndarray) (design_names : option (list string))
    (native : bool) (lims : option (list (Q * Q))) (theta_ref : option (list Q))
    (save : option string) (theta : ndarray) :
  contains samples_dict "theta" = true ->
  dict_get samples_dict (if native then "theta_native" else "theta")%string
  = Some theta ->
  (1 <= shape0 theta)%nat -> (1 <= shape1 theta)%nat ->
  match design_names with
  | Some names => length names = shape1 theta /\ ~ In "idx"%string names
  | None => True
  end ->
  exists data rest,
    trace (theta_pairs samples_dict design_names native lims theta_ref save)
    = (if (2 <=? shape1 theta)%nat
       then [EPairGrid (names_used design_names (shape1 theta)) data]
       else [ESubplots 1;
             EDistplot data
               (nth 0 (names_used design_names (shape1 theta)) ""%string)])
      ++ rest.
Proof.
  intros Hin Hget Hrows Hcols Hnames.
  unfold theta_pairs. rewrite Hin. cbn [negb].
  assert (Eget : (if negb native then getitem samples_dict "theta"
                  else getitem samples_dict "theta_native") = ret theta).
  { unfold getitem. destruct native; cbn [negb]; rewrite Hget; reflexivity. }
  rewrite Eget, bind_ret. unfold theta_pairs_plot.
  assert (Echeck :
    match design_names with
    | Some l =>
        if negb (length l =? shape1 theta)%nat
        then raise (ValueError "Design names wrong length") else ret tt
    | None => ret tt
    end = ret tt).
  { destruct design_names as [l |]; [| reflexivity].
    destruct Hnames as [-> _]. rewrite Nat.eqb_refl. reflexivity. }
  rewrite Echeck, bind_ret.
  destruct (thinning_runs theta Hrows) as (idx & data & E1 & E2).
  rewrite E1, (bind_silent _ _ idx eq_refl), E2, (bind_silent _ _ data eq_refl).
  fold (names_used design_names (shape1 theta)).
  assert (Eidx :
    existsb (String.eqb "idx") (names_used design_names (shape1 theta)) = false).
  { destruct design_names as [l |];
      [apply no_idx_existsb; tauto | apply default_names_no_idx]. }
  rewrite Eidx.
  assert (Ebranch : (2 <? shape1 theta + 1)%nat = (2 <=? shape1 theta)%nat).
  { destruct (Nat.ltb_spec 2 (shape1 theta + 1));
      destruct (Nat.leb_spec 2 (shape1 theta)); (reflexivity || lia). }
  rewrite Ebranch. exists data. destruct (2 <=? shape1 theta)%nat.
  - rewrite trace_bind_emit. eexists. reflexivity.
  - rewrite trace_bind_emit.
    assert (Elabel :
      list_getitem (names_used design_names (shape1 theta)) 0
      = ret (nth 0 (names_used design_names (shape1 theta)) ""%string)).
    { unfold list_getitem.
      rewrite (nth_error_nth' _ ""%string); [reflexivity |].
      destruct design_names as [l |]; cbn [names_used].
      - destruct Hnames as [-> _]. lia.
      - rewrite length_map, length_seq. lia. }
    rewrite Elabel, bind_ret, trace_bind_emit. eexists. reflexivity.
Qed.

Lemma theta_pairs_reaches_plot_witness :
  exists data rest,
    trace (theta_pairs calib_samples None true None
             (Some [12; 25]%Q) (Some "pairs.png"%string))
    = [EPairGrid ["theta_1"; "theta_2"]%string data] ++ rest.
Proof.
  apply (theta_pairs_reaches_plot calib_samples None true
           None (Some [12; 25]%Q) (Some "pairs.png"%string)
           theta_native_samples).
  - reflexivity.
  - reflexivity.
  - unfold shape0. simpl. lia.
  - unfold shape1. simpl. lia.
  - exact I.
Defined.

(** ** [rho_box_plots]: the labels *)


